(** * The request core of the Foreman API client (foreman/foreman.py)

    A shallow embedding of the part of [class Foreman] that carries logic:
    [_get_resource_url], the four verb wrappers [_get_request],
    [_post_request], [_put_request], [_delete_request], and the generic
    operations [get_resources], [get_resource], [post_resource],
    [put_resource], [delete_resource] and [search_resource].

    Conventions of the embedding.
    - Python values are the type [value]; the semantics followed is that of
      Python 3.  Numbers are integers ([Z]); a string is a sequence of
      characters with code points below 256.
    - A [dict] keeps its entries in insertion order, keys are strings.
    - The network is a function [server] from the requests issued so far and
      the current request to a response; every request issued is appended to
      a log, which is the state threaded through the [io] monad.
    - A response carries its body already decoded: [resp_json] is [None]
      when the text of the body is not JSON.  Both [json.loads(req.text)]
      and [req.json()] read this field. *)

From Stdlib Require Import ZArith List String Ascii Bool Lia DecimalString.
Import ListNotations.

Open Scope string_scope.
Open Scope Z_scope.

Set Warnings "-register-all".

(** ** Python values *)

Inductive value : Type :=
| VNone
| VBool (b : bool)
| VInt (n : Z)
| VStr (s : string)
| VList (l : list value)
| VDict (d : list (string * value)).

Definition dict : Type := list (string * value).

(** Exceptions.  [ForemanError] is the class of the source; the other
    constructors are the built-in exceptions the modelled code can run into. *)

Record ForemanError : Type := mkForemanError {
  error_url : string;
  error_request : value;
  error_status_code : Z;
  error_message : value
}.

Inductive exn : Type :=
| Foreman_Error (e : ForemanError)
| AttributeError
| TypeError
| ValueError
| KeyError
| IndexError.

Inductive result (A : Type) : Type :=
| Ok (a : A)
| Raise (e : exn).

Arguments Ok {A} a.
Arguments Raise {A} e.

(** ** Dictionaries *)

Module Dict.

Fixpoint get (k : string) (d : dict) : option value :=
  match d with
  | [] => None
  | (k', v) :: d' => if String.eqb k k' then Some v else get k d'
  end.

(** [d.get(k)]: a missing key gives [None]. *)
Definition get_or_none (k : string) (d : dict) : value :=
  match get k d with Some v => v | None => VNone end.

(** [k in d] *)
Definition mem (k : string) (d : dict) : bool :=
  match get k d with Some _ => true | None => false end.

(** [d[k] = v]: an existing key keeps its place, a new key goes last. *)
Fixpoint set (k : string) (v : value) (d : dict) : dict :=
  match d with
  | [] => [(k, v)]
  | (k', v') :: d' =>
      if String.eqb k k' then (k', v) :: d' else (k', v') :: set k v d'
  end.

(** [d.keys()], also the order of [for key in d]. *)
Definition keys (d : dict) : list string := map fst d.

(** The entries of a dictionary have pairwise different keys. *)
Definition wf (d : dict) : Prop := NoDup (keys d).

End Dict.

(** ** Built-in operations on values *)

(** Truth value of an object, as tested by [if x:] and [and]. *)
Definition truthy (x : value) : bool :=
  match x with
  | VNone => false
  | VBool b => b
  | VInt n => negb (n =? 0)
  | VStr s => negb (String.eqb s EmptyString)
  | VList l => match l with [] => false | _ => true end
  | VDict d => match d with [] => false | _ => true end
  end.

(** The one-character string holding a double quote. *)
Definition dquote : string := String (ascii_of_nat 34) EmptyString.

Definition str_of_Z (n : Z) : string := NilZero.string_of_int (Z.to_int n).

(** [isinstance(x, int)]; [bool] is a subclass of [int]. *)
Definition isinstance_int (x : value) : bool :=
  match x with VInt _ | VBool _ => true | _ => false end.

(** [needle in hay] on strings. *)
Definition substring (needle hay : string) : bool :=
  match index 0 needle hay with Some _ => true | None => false end.

(** [k in x] for a string [k]. *)
Definition py_contains (k : string) (x : value) : result bool :=
  match x with
  | VDict d => Ok (Dict.mem k d)
  | VList l =>
      Ok (existsb (fun v => match v with VStr s => String.eqb s k | _ => false end) l)
  | VStr s => Ok (substring k s)
  | VNone | VBool _ | VInt _ => Raise TypeError
  end.

(** [x.get(k)]: only a dict has the method. *)
Definition py_get (x : value) (k : string) : result value :=
  match x with
  | VDict d => Ok (Dict.get_or_none k d)
  | _ => Raise AttributeError
  end.

(** [x.has_key]: no built-in type of Python 3 has this attribute. *)
Definition py_has_key (x : value) : result value :=
  Raise AttributeError.

(** [sep.join(x)] *)
Fixpoint strings_of (l : list value) : option (list string) :=
  match l with
  | [] => Some []
  | VStr s :: l' =>
      match strings_of l' with Some ss => Some (s :: ss) | None => None end
  | _ :: _ => None
  end.

Definition py_join (sep : string) (x : value) : result value :=
  match x with
  | VList l =>
      match strings_of l with
      | Some ss => Ok (VStr (String.concat sep ss))
      | None => Raise TypeError
      end
  | VStr s =>
      Ok (VStr (String.concat sep
                  (map (fun c => String c EmptyString) (list_ascii_of_string s))))
  | VDict d => Ok (VStr (String.concat sep (Dict.keys d)))
  | VNone | VBool _ | VInt _ => Raise TypeError
  end.

(** [len(x)] *)
Definition py_len (x : value) : result Z :=
  match x with
  | VList l => Ok (Z.of_nat (List.length l))
  | VDict d => Ok (Z.of_nat (List.length d))
  | VStr s => Ok (Z.of_nat (String.length s))
  | VNone | VBool _ | VInt _ => Raise TypeError
  end.

(** [x[0]], used on an [x] with [len(x) == 1]; the keys of a dict are
    strings, so the integer key is missing. *)
Definition py_item0 (x : value) : result value :=
  match x with
  | VList (v :: _) => Ok v
  | VStr (String c _) => Ok (VStr (String c EmptyString))
  | VDict _ => Raise KeyError
  | VList [] | VStr EmptyString => Raise IndexError
  | VNone | VBool _ | VInt _ => Raise TypeError
  end.

(** ** Requests, responses and the [io] monad *)

Inductive verb : Type := GET | POST | PUT | DELETE.

(** What is handed to [requests] as [data=]. *)
Inductive payload : Type :=
| NoData
| Form (data : value)            (* data=data *)
| Json (data : value).           (* data=json.dumps(data) *)

Record request : Type := mkRequest {
  req_verb : verb;
  req_url : string;
  req_data : payload;
  req_headers : bool;            (* headers=FOREMAN_REQUEST_HEADERS *)
  req_auth : string * string
}.

Record response : Type := mkResponse {
  resp_url : string;
  status_code : Z;
  resp_json : option value
}.

Definition io (A : Type) : Type := list request -> result A * list request.

Definition ret {A} (a : A) : io A := fun log => (Ok a, log).

Definition raise {A} (e : exn) : io A := fun log => (Raise e, log).

Definition lift {A} (r : result A) : io A := fun log => (r, log).

Definition bind {A B} (m : io A) (f : A -> io B) : io B :=
  fun log =>
    match m log with
    | (Ok a, log') => f a log'
    | (Raise e, log') => (Raise e, log')
    end.

Declare Scope io_scope.
Delimit Scope io_scope with io.
Notation "x <- m ;; k" := (bind m (fun x => k))
  (at level 100, m at next level, right associativity) : io_scope.
Open Scope io_scope.

(** [json.loads(req.text)] and [req.json()] *)
Definition json_of (req : response) : io value :=
  match resp_json req with
  | Some v => ret v
  | None => raise ValueError
  end.

Record Foreman : Type := mkForeman {
  auth : string * string;
  hostname : string;
  port : value;
  url : string
}.

Definition FOREMAN_API_VERSION : string := "v2".

Section Client.

(** [str(x)] of a list or a dict is Python's [repr] of it; its text is
    left open. *)
Variable py_repr : value -> string.

(** The remote API: the response to a request, given the requests that
    were issued before it. *)
Variable server : list request -> request -> response.

(** [str(x)] *)
Definition py_str (x : value) : string :=
  match x with
  | VNone => "None"
  | VBool true => "True"
  | VBool false => "False"
  | VInt n => str_of_Z n
  | VStr s => s
  | VList _ | VDict _ => py_repr x
  end.

(** [requests.get], [requests.post], [requests.put], [requests.delete]:
    the request is logged and the server's response returned. *)
Definition send (r : request) : io response :=
  fun log => (Ok (server log r), (log ++ [r])%list).

(** [Foreman.__init__] *)
Definition Foreman_init (hostname : string) (port : value)
    (username password : string) : Foreman :=
  {| auth := (username, password);
     hostname := hostname;
     port := port;
     url := "https://" ++ hostname ++ ":" ++ py_str port ++ "/api/"
            ++ FOREMAN_API_VERSION |}.

(** [resource_type] and [component] are strings ([component] defaults to
    [None]); [resource_id] and [component_id] are any value, passed
    through [str]. *)
Definition _get_resource_url (self : Foreman) (resource_type : string)
    (resource_id : value) (component : option string)
    (component_id : value) : string :=
  let url0 := (url self ++ "/") ++ resource_type in
  if truthy resource_id then
    let url1 := (url0 ++ "/") ++ py_str resource_id in
    match component with
    | Some c =>
        if truthy (VStr c) then
          let url2 := (url1 ++ "/") ++ c in
          if truthy component_id then (url2 ++ "/") ++ py_str component_id
          else url2
        else url1
    | None => url1
    end
  else url0.

Definition _get_request (self : Foreman) (url : string) (data : value)
    : io value :=
  req <- send {| req_verb := GET; req_url := url; req_data := Form data;
                 req_headers := false; req_auth := auth self |} ;;
  if status_code req =? 200 then json_of req
  else
    body <- json_of req ;;
    err <- lift (py_get body "error") ;;
    msg <- lift (py_get err "message") ;;
    request <- json_of req ;;
    raise (Foreman_Error
             {| error_url := resp_url req;
                error_status_code := status_code req;
                error_message := msg;
                error_request := request |}).

Definition _post_request (self : Foreman) (url : string) (data : value)
    : io value :=
  req <- send {| req_verb := POST; req_url := url; req_data := Json data;
                 req_headers := true; req_auth := auth self |} ;;
  if (status_code req =? 200) || (status_code req =? 201) then json_of req
  else
    body <- json_of req ;;
    request_error <- lift (py_get body "error") ;;
    has_message <- lift (py_contains "message" request_error) ;;
    error_message <-
      (if has_message : bool then lift (py_get request_error "message")
       else
         has_key <- lift (py_has_key request_error) ;;
         has_full <- lift (py_contains "full_messages" has_key) ;;
         if has_full : bool then
           full <- lift (py_get request_error "full_messages") ;;
           lift (py_join ", " full)
         else ret request_error) ;;
    request <- json_of req ;;
    raise (Foreman_Error
             {| error_url := resp_url req;
                error_status_code := status_code req;
                error_message := error_message;
                error_request := request |}).

Definition _put_request (self : Foreman) (url : string) (data : value)
    : io value :=
  req <- send {| req_verb := PUT; req_url := url; req_data := Json data;
                 req_headers := true; req_auth := auth self |} ;;
  if status_code req =? 200 then json_of req
  else
    body <- json_of req ;;
    err <- lift (py_get body "error") ;;
    msg <- lift (py_get err "message") ;;
    request <- json_of req ;;
    raise (Foreman_Error
             {| error_url := resp_url req;
                error_status_code := status_code req;
                error_message := msg;
                error_request := request |}).

Definition _delete_request (self : Foreman) (url : string) : io value :=
  req <- send {| req_verb := DELETE; req_url := url; req_data := NoData;
                 req_headers := true; req_auth := auth self |} ;;
  if status_code req =? 200 then json_of req
  else
    body <- json_of req ;;
    err <- lift (py_get body "error") ;;
    msg <- lift (py_get err "message") ;;
    request <- json_of req ;;
    raise (Foreman_Error
             {| error_url := resp_url req;
                error_status_code := status_code req;
                error_message := msg;
                error_request := request |}).

Definition get_resources (self : Foreman) (resource_type : string)
    : io value :=
  request_result <-
    _get_request self (_get_resource_url self resource_type VNone None VNone)
      VNone ;;
  lift (py_get request_result "results").

(** One turn of the loop of [search_resource]; [search] is
    [data['search']]. *)
Definition search_step (search_data : dict) (search : string)
    (key : string) : string :=
  let search := if truthy (VStr search) then search ++ " AND " else search in
  let search := search ++ (key ++ " == ") in
  match Dict.get key search_data with
  | Some v =>
      if isinstance_int v then search ++ py_str v
      else match v with
           | VStr s => search ++ ((dquote ++ s) ++ dquote)
           | _ => search
           end
  | None => search
  end.

Definition search_query (search_data : dict) : string :=
  fold_left (search_step search_data) (Dict.keys search_data) EmptyString.

Definition search_resource (self : Foreman) (resource_type : string)
    (search_data : dict) : io value :=
  let data := VDict [("search", VStr (search_query search_data))] in
  results <-
    _get_request self (_get_resource_url self resource_type VNone None VNone)
      data ;;
  result <- lift (py_get results "results") ;;
  n <- lift (py_len result) ;;
  if n =? 1 then lift (py_item0 result) else ret result.

Definition get_resource (self : Foreman) (resource_type : string)
    (data : dict) : io value :=
  resource_id <-
    (if Dict.mem "id" data then ret (Dict.get_or_none "id" data)
     else if Dict.mem "name" data then
       resource <- search_resource self resource_type data ;;
       if truthy resource && truthy (VStr "id") && truthy resource
       then lift (py_get resource "id")
       else ret VNone
     else ret VNone) ;;
  if truthy resource_id then
    _get_request self
      (_get_resource_url self resource_type resource_id None VNone) VNone
  else ret VNone.

(** The loop copying [additional_data] into [resource_data]. *)
Definition copy_step (additional_data : dict) (resource_data : dict)
    (key : string) : dict :=
  match Dict.get key additional_data with
  | Some v => Dict.set key v resource_data
  | None => resource_data
  end.

Definition post_resource_data (resource : string) (data : value)
    (additional_data : option dict) : dict :=
  let resource_data : dict := [] in
  let resource_data :=
    match additional_data with
    | Some ad =>
        if truthy (VDict ad) then
          fold_left (copy_step ad) (Dict.keys ad) resource_data
        else resource_data
    | None => resource_data
    end in
  Dict.set resource data resource_data.

Definition post_resource (self : Foreman) (resource_type : string)
    (resource : string) (data : value) (additional_data : option dict)
    : io value :=
  let url := _get_resource_url self resource_type VNone None VNone in
  _post_request self url
    (VDict (post_resource_data resource data additional_data)).

Definition put_resource (self : Foreman) (resource_type : string)
    (resource_id : value) (data : value) (component : option string)
    : io value :=
  _put_request self
    (_get_resource_url self resource_type resource_id component VNone) data.

Definition delete_resource (self : Foreman) (resource_type : string)
    (data : dict) : io value :=
  let resource_id := VStr (py_str (Dict.get_or_none "id" data)) in
  _delete_request self
    (_get_resource_url self resource_type resource_id None VNone).

End Client.

(** ** Resource-specific methods

    The methods of three families, each a fixed-argument call of a generic
    operation: hosts (looked up by search, with the power operations),
    architectures (looked up by id or name) and the compute resources,
    profiles and attributes. *)

Section Families.

Variable py_repr : value -> string.
Variable server : list request -> request -> response.

Definition get_architectures (self : Foreman) : io value :=
  get_resources py_repr server self "architectures".

Definition get_architecture (self : Foreman) (data : dict) : io value :=
  get_resource py_repr server self "architectures" data.

Definition set_architecture (self : Foreman) (data : value) : io value :=
  post_resource py_repr server self "architectures" "architecture" data None.

Definition create_architecture (self : Foreman) (data : value) : io value :=
  set_architecture self data.

Definition delete_architecture (self : Foreman) (data : dict) : io value :=
  delete_resource py_repr server self "architectures" data.

Definition get_hosts (self : Foreman) : io value :=
  get_resources py_repr server self "hosts".

Definition get_host (self : Foreman) (data : dict) : io value :=
  search_resource py_repr server self "hosts" data.

Definition set_host (self : Foreman) (data : value) : io value :=
  post_resource py_repr server self "hosts" "host" data None.

Definition create_host (self : Foreman) (data : value) : io value :=
  set_host self data.

Definition delete_host (self : Foreman) (data : dict) : io value :=
  delete_resource py_repr server self "hosts" data.

Definition get_host_power (self : Foreman) (host_id : value) : io value :=
  put_resource py_repr server self "hosts" host_id
    (VDict [("power_action", VStr "state"); ("host", VDict [])])
    (Some "power").

Definition set_host_power (self : Foreman) (host_id : value) (action : value)
    : io value :=
  put_resource py_repr server self "hosts" host_id
    (VDict [("power_action", action); ("host", VDict [])])
    (Some "power").

Definition poweron_host (self : Foreman) (host_id : value) : io value :=
  set_host_power self host_id (VStr "start").

Definition poweroff_host (self : Foreman) (host_id : value) : io value :=
  set_host_power self host_id (VStr "stop").

Definition reboot_host (self : Foreman) (host_id : value) : io value :=
  set_host_power self host_id (VStr "reboot").

Definition get_compute_profiles (self : Foreman) : io value :=
  get_resources py_repr server self "compute_profiles".

Definition get_compute_profile (self : Foreman) (data : dict) : io value :=
  get_resource py_repr server self "compute_profiles" data.

Definition get_compute_resources (self : Foreman) : io value :=
  get_resources py_repr server self "compute_resources".

Definition get_compute_resource (self : Foreman) (data : dict) : io value :=
  get_resource py_repr server self "compute_resources" data.

Definition get_compute_attributes (self : Foreman) (data : dict) : io value :=
  compute_resource <-
    get_compute_resource self
      [("name", Dict.get_or_none "compute_resource" data)] ;;
  if truthy compute_resource
  then lift (py_get compute_resource "compute_attributes")
  else ret VNone.

Definition create_compute_attribute (self : Foreman) (data : dict)
    : io value :=
  let addition_data : dict :=
    [("compute_resource_id", Dict.get_or_none "compute_resource_id" data);
     ("compute_profile_id", Dict.get_or_none "compute_profile_id" data)] in
  let resource_data :=
    VDict [("vm_attrs", Dict.get_or_none "vm_attrs" data)] in
  post_resource py_repr server self "compute_attributes" "compute_attribute"
    resource_data (Some addition_data).

Definition update_compute_attribute (self : Foreman) (data : dict)
    : io value :=
  put_resource py_repr server self "compute_attributes"
    (Dict.get_or_none "id" data)
    (VDict [("vm_attrs", Dict.get_or_none "vm_attrs" data)]) None.

End Families.

(** ** The specification's reading of the transport contract *)

(** The message of a failed request as the specification words it: the
    [message] entry of the error object if it has one, else its
    [full_messages] joined with [", "], else the error object itself. *)
Definition spec_error_message (request_error : dict) : result value :=
  if Dict.mem "message" request_error then
    Ok (Dict.get_or_none "message" request_error)
  else if Dict.mem "full_messages" request_error then
    py_join ", " (Dict.get_or_none "full_messages" request_error)
  else Ok (VDict request_error).

(** What a verb wrapper owes its caller, given the statuses [ok] it takes
    for success, the response [resp] it received and its outcome [out]:
    the decoded body exactly on success; a [ForemanError] only on failure
    and only with the status of the response; and, on failure with an
    error body of the documented shape [{"error": {...}}] (carrying a
    [message] when [needs_message] is set), the [ForemanError] built from
    the response. *)
Definition status_mapping (ok : Z -> bool) (needs_message : bool)
    (resp : response) (out : result value) : Prop :=
  (forall v, out = Ok v <->
             ok (status_code resp) = true /\ resp_json resp = Some v)
  /\ (forall e, out = Raise (Foreman_Error e) ->
                ok (status_code resp) = false
                /\ error_status_code e = status_code resp)
  /\ (forall body err,
        ok (status_code resp) = false ->
        resp_json resp = Some (VDict body) ->
        Dict.get "error" body = Some (VDict err) ->
        (needs_message = true -> Dict.mem "message" err = true) ->
        out = Raise (Foreman_Error
                       {| error_url := resp_url resp;
                          error_request := VDict body;
                          error_status_code := status_code resp;
                          error_message := Dict.get_or_none "message" err |})).

(** A request of the log is a search: a GET carrying a [search] query. *)
Definition is_search (r : request) : Prop :=
  req_verb r = GET /\ exists q, req_data r = Form (VDict [("search", VStr q)]).

(** One clause of a search query. *)
Definition clause (entry : string * value) : string :=
  match entry with
  | (key, VInt n) => key ++ " == " ++ str_of_Z n
  | (key, VStr s) => key ++ " == " ++ dquote ++ s ++ dquote
  | (key, _) => key ++ " == "
  end.

(** ** The requests and outcomes of the verb wrappers *)

(** The request each wrapper hands to [requests]. *)

Definition get_req (self : Foreman) (url : string) (data : value) : request :=
  {| req_verb := GET; req_url := url; req_data := Form data;
     req_headers := false; req_auth := auth self |}.

Definition post_req (self : Foreman) (url : string) (data : value) : request :=
  {| req_verb := POST; req_url := url; req_data := Json data;
     req_headers := true; req_auth := auth self |}.

Definition put_req (self : Foreman) (url : string) (data : value) : request :=
  {| req_verb := PUT; req_url := url; req_data := Json data;
     req_headers := true; req_auth := auth self |}.

Definition delete_req (self : Foreman) (url : string) : request :=
  {| req_verb := DELETE; req_url := url; req_data := NoData;
     req_headers := true; req_auth := auth self |}.

(** The outcome of a wrapper whose success test is [status == 200]. *)
Definition outcome_200 (resp : response) : result value :=
  if status_code resp =? 200 then
    match resp_json resp with Some v => Ok v | None => Raise ValueError end
  else
    match resp_json resp with
    | None => Raise ValueError
    | Some body =>
        match py_get body "error" with
        | Raise e => Raise e
        | Ok err =>
            match py_get err "message" with
            | Raise e => Raise e
            | Ok msg =>
                Raise (Foreman_Error
                         {| error_url := resp_url resp;
                            error_request := body;
                            error_status_code := status_code resp;
                            error_message := msg |})
            end
        end
    end.


(** The outcome of [_post_request], whose success test is
    [status in [200, 201]]. *)
Definition outcome_post (resp : response) : result value :=
  if (status_code resp =? 200) || (status_code resp =? 201) then
    match resp_json resp with Some v => Ok v | None => Raise ValueError end
  else
    match resp_json resp with
    | None => Raise ValueError
    | Some body =>
        match py_get body "error" with
        | Raise e => Raise e
        | Ok err =>
            match py_contains "message" err with
            | Raise e => Raise e
            | Ok false => Raise AttributeError
            | Ok true =>
                match py_get err "message" with
                | Raise e => Raise e
                | Ok msg =>
                    Raise (Foreman_Error
                             {| error_url := resp_url resp;
                                error_request := body;
                                error_status_code := status_code resp;
                                error_message := msg |})
                end
            end
        end
    end.

(** The request [search_resource] issues. *)
Definition search_req (py_repr : value -> string) (self : Foreman)
    (resource_type : string) (search_data : dict) : request :=
  get_req self (url self ++ "/" ++ resource_type)
    (VDict [("search", VStr (search_query py_repr search_data))]).

(** Clauses joined one after the other onto [acc], with [" AND "] before
    each clause that does not come first. *)
Definition join_onto (acc : string) (clauses : list string) : string :=
  fold_left
    (fun acc c => (if truthy (VStr acc) then acc ++ " AND " else acc) ++ c)
    clauses acc.

(** A value a search filter may hold: an integer or a string. *)
Definition filter_value (v : value) : Prop :=
  (exists n, v = VInt n) \/ (exists s, v = VStr s).

(** The entries of [additional_data], none when it is left out. *)
Definition extra_entries (additional_data : option dict) : dict :=
  match additional_data with Some ad => ad | None => [] end.

(** One clause of a search query for a value of any type: a [bool] is an
    [int] for [isinstance], a value that is neither [int] nor [str] adds
    nothing after [" == "]. *)
Definition clause_of (entry : string * value) : string :=
  match entry with
  | (key, VInt n) => key ++ " == " ++ str_of_Z n
  | (key, VBool true) => key ++ " == True"
  | (key, VBool false) => key ++ " == False"
  | (key, VStr s) => key ++ " == " ++ dquote ++ s ++ dquote
  | (key, _) => key ++ " == "
  end.

(** The requests in [issued] are what a run added to the log [log]. *)
Definition issues {A} (run : result A * list request) (log : list request)
    (issued : list request) : Prop :=
  snd run = (log ++ issued)%list.

(** A request that only reads: a GET with the credentials of the client and
    without the JSON headers. *)
Definition read_only (self : Foreman) (r : request) : Prop :=
  req_verb r = GET /\ req_auth r = auth self /\ req_headers r = false.

(** The body of the power operations. *)
Definition power_body (action : value) : value :=
  VDict [("power_action", action); ("host", VDict [])].

(** ** A client and some servers for the examples *)

(** A stand-in for [repr] where no list or dict is passed to [str]. *)
Definition no_repr (x : value) : string := EmptyString.

Definition foreman0 : Foreman :=
  Foreman_init no_repr "foreman.example.com" (VInt 443) "admin" "secret".

(** A server that answers every request with the same response. *)
Definition always (resp : response) : list request -> request -> response :=
  fun _ _ => resp.

(** 500 with body [{"status": 500, "error": "Internal Server Error"}]: the
    [error] entry is a string, not a mapping. *)
Definition internal_error : response :=
  {| resp_url := "https://foreman.example.com:443/api/v2/hosts";
     status_code := 500;
     resp_json :=
       Some (VDict [("status", VInt 500);
                    ("error", VStr "Internal Server Error")]) |}.

(** 404 with body [{"error": {"message": "not found"}}]. *)
Definition not_found : response :=
  {| resp_url := "https://foreman.example.com:443/api/v2/domains/3";
     status_code := 404;
     resp_json :=
       Some (VDict [("error", VDict [("message", VStr "not found")])]) |}.

(** 422 with body [{"error": {"full_messages": [...]}}]. *)
Definition taken_messages : value :=
  VList [VStr "Name has already been taken"; VStr "Fullname is invalid"].

Definition unprocessable : response :=
  {| resp_url := "https://foreman.example.com:443/api/v2/domains";
     status_code := 422;
     resp_json :=
       Some (VDict [("error", VDict [("full_messages", taken_messages)])]) |}.

(** 200 with body [{"results": []}]. *)
Definition no_results : response :=
  {| resp_url := "https://foreman.example.com:443/api/v2/hosts";
     status_code := 200;
     resp_json := Some (VDict [("results", VList [])]) |}.

(** 200 with body [{"results": [{"id": 7, "name": "h1"}]}]. *)
Definition one_result : response :=
  {| resp_url := "https://foreman.example.com:443/api/v2/hosts";
     status_code := 200;
     resp_json :=
       Some (VDict [("results",
                     VList [VDict [("id", VInt 7); ("name", VStr "h1")]])]) |}.

(** 201 with body [{"id": 3, "name": "example.com"}]. *)
Definition created : response :=
  {| resp_url := "https://foreman.example.com:443/api/v2/domains";
     status_code := 201;
     resp_json :=
       Some (VDict [("id", VInt 3); ("name", VStr "example.com")]) |}.

(** A server that answers the first request with [r1] and every later one
    with [r2]. *)
Definition first_then (r1 r2 : response)
    : list request -> request -> response :=
  fun log _ => match log with [] => r1 | _ :: _ => r2 end.

(** 200 with body [{"total": 0}], a mapping without [results]. *)
Definition no_results_entry : response :=
  {| resp_url := "https://foreman.example.com:443/api/v2/hosts";
     status_code := 200;
     resp_json := Some (VDict [("total", VInt 0)]) |}.

(** 200 with the body of a compute resource. *)
Definition compute_resource_7 : response :=
  {| resp_url := "https://foreman.example.com:443/api/v2/compute_resources/7";
     status_code := 200;
     resp_json :=
       Some (VDict [("id", VInt 7); ("name", VStr "h1");
                    ("compute_attributes",
                     VList [VDict [("compute_profile_id", VInt 2)]])]) |}.

(** * Properties *)

(** ** Strings and dictionaries *)

Lemma append_assoc (a b c : string) : (a ++ b) ++ c = a ++ (b ++ c).
Proof.
  induction a as [|ch a IH]; simpl; [reflexivity | now rewrite IH].
Qed.

Lemma append_empty_r (a : string) : a ++ EmptyString = a.
Proof.
  induction a as [|ch a IH]; simpl; [reflexivity | now rewrite IH].
Qed.

Lemma append_nonempty_r (a b : string) :
  b <> EmptyString -> a ++ b <> EmptyString.
Proof.
  destruct a; simpl; [tauto | discriminate].
Qed.

Lemma truthy_VStr (s : string) :
  truthy (VStr s) = true <-> s <> EmptyString.
Proof.
  simpl. destruct (String.eqb_spec s EmptyString); simpl; split; congruence.
Qed.

Lemma str_of_Z_nonempty (n : Z) : str_of_Z n <> EmptyString.
Proof.
  unfold str_of_Z.
  destruct (Z.to_int n) as [d|d]; simpl; [|discriminate].
  destruct d; simpl; discriminate.
Qed.

Lemma truthy_str_of_Z (n : Z) : truthy (VStr (str_of_Z n)) = true.
Proof. apply truthy_VStr, str_of_Z_nonempty. Qed.


Module DictFacts.

Lemma get_set_same k v d : Dict.get k (Dict.set k v d) = Some v.
Proof.
  induction d as [|[k' v'] d IH]; simpl.
  - now rewrite String.eqb_refl.
  - destruct (String.eqb k k') eqn:E; simpl; rewrite E; auto.
Qed.

Lemma get_set_other k k' v d :
  k' <> k -> Dict.get k' (Dict.set k v d) = Dict.get k' d.
Proof.
  intros Hne. induction d as [|[k0 v0] d IH]; simpl.
  - destruct (String.eqb_spec k' k); congruence.
  - destruct (String.eqb_spec k k0) as [->|Hk]; simpl.
    + destruct (String.eqb_spec k' k0); congruence.
    + now rewrite IH.
Qed.

Lemma keys_set k v d :
  Dict.keys (Dict.set k v d)
  = if Dict.mem k d then Dict.keys d else (Dict.keys d ++ [k])%list.
Proof.
  unfold Dict.mem, Dict.keys.
  induction d as [|[k0 v0] d IH]; simpl; [reflexivity|].
  destruct (String.eqb_spec k k0) as [->|Hk]; simpl; [reflexivity|].
  rewrite IH. now destruct (Dict.get k d).
Qed.

Lemma mem_In k d : Dict.mem k d = true <-> In k (Dict.keys d).
Proof.
  unfold Dict.mem, Dict.keys.
  induction d as [|[k0 v0] d IH]; simpl.
  - split; [discriminate | tauto].
  - destruct (String.eqb_spec k k0) as [->|Hk].
    + split; auto.
    + rewrite IH. split; [auto | intros [E|H]; congruence].
Qed.

Lemma wf_set k v d : Dict.wf d -> Dict.wf (Dict.set k v d).
Proof.
  unfold Dict.wf. intros H. rewrite keys_set.
  destruct (Dict.mem k d) eqn:E; [assumption|].
  apply NoDup_app; [assumption | repeat constructor; simpl; tauto |].
  intros x Hx [<-|[]]. apply mem_In in Hx. congruence.
Qed.

Lemma get_In k v d : Dict.wf d -> In (k, v) d -> Dict.get k d = Some v.
Proof.
  unfold Dict.wf, Dict.keys.
  induction d as [|[k0 v0] d IH]; simpl; [tauto|].
  intros Hnd [E|Hin].
  - injection E as -> ->. now rewrite String.eqb_refl.
  - inversion Hnd as [|? ? Hnotin Hnd']; subst.
    destruct (String.eqb_spec k k0) as [->|Hk]; [|auto].
    exfalso. apply Hnotin. change k0 with (fst (k0, v)). now apply in_map.
Qed.

End DictFacts.

(** ** The URL builder *)

Section UrlBuilder.

Variable py_repr : value -> string.
Variable self : Foreman.

Lemma url_falsy_id rt rid comp cid :
  truthy rid = false ->
  _get_resource_url py_repr self rt rid comp cid = url self ++ "/" ++ rt.
Proof.
  intros H. unfold _get_resource_url. rewrite H. apply append_assoc.
Qed.

Lemma url_id_only rt rid cid :
  truthy rid = true ->
  _get_resource_url py_repr self rt rid None cid
  = url self ++ "/" ++ rt ++ "/" ++ py_str py_repr rid.
Proof.
  intros H. unfold _get_resource_url. rewrite H.
  now rewrite !append_assoc.
Qed.


End UrlBuilder.

(** ** The verb wrappers *)

Ltac run_io :=
  unfold bind, send, json_of, lift, ret, raise; simpl.

Section Transport.

Variable server : list request -> request -> response.
Variable self : Foreman.

(** Each wrapper issues exactly one request. *)

Lemma get_request_log url data log :
  snd (_get_request server self url data log)
  = (log ++ [get_req self url data])%list.
Proof.
  unfold _get_request. run_io. fold (get_req self url data).
  destruct (status_code _ =? 200); destruct (resp_json _) as [b|];
    try reflexivity.
  destruct (py_get b "error") as [err|]; try reflexivity. simpl.
  destruct (py_get err "message"); reflexivity.
Qed.

Lemma put_request_log url data log :
  snd (_put_request server self url data log)
  = (log ++ [put_req self url data])%list.
Proof.
  unfold _put_request. run_io. fold (put_req self url data).
  destruct (status_code _ =? 200); destruct (resp_json _) as [b|];
    try reflexivity.
  destruct (py_get b "error") as [err|]; try reflexivity. simpl.
  destruct (py_get err "message"); reflexivity.
Qed.

Lemma delete_request_log url log :
  snd (_delete_request server self url log)
  = (log ++ [delete_req self url])%list.
Proof.
  unfold _delete_request. run_io. fold (delete_req self url).
  destruct (status_code _ =? 200); destruct (resp_json _) as [b|];
    try reflexivity.
  destruct (py_get b "error") as [err|]; try reflexivity. simpl.
  destruct (py_get err "message"); reflexivity.
Qed.

Lemma post_request_log url data log :
  snd (_post_request server self url data log)
  = (log ++ [post_req self url data])%list.
Proof.
  unfold _post_request. run_io. fold (post_req self url data).
  destruct (_ || _); destruct (resp_json _) as [b|]; try reflexivity.
  destruct (py_get b "error") as [err|]; try reflexivity. simpl.
  destruct (py_contains "message" err) as [[|]|]; try reflexivity. simpl.
  destruct (py_get err "message"); reflexivity.
Qed.

Lemma get_request_outcome url data log :
  fst (_get_request server self url data log)
  = outcome_200 (server log (get_req self url data)).
Proof.
  unfold _get_request, outcome_200. run_io. fold (get_req self url data).
  destruct (status_code _ =? 200); destruct (resp_json _) as [b|];
    try reflexivity.
  destruct (py_get b "error") as [err|]; try reflexivity. simpl.
  destruct (py_get err "message"); reflexivity.
Qed.

Lemma put_request_outcome url data log :
  fst (_put_request server self url data log)
  = outcome_200 (server log (put_req self url data)).
Proof.
  unfold _put_request, outcome_200. run_io. fold (put_req self url data).
  destruct (status_code _ =? 200); destruct (resp_json _) as [b|];
    try reflexivity.
  destruct (py_get b "error") as [err|]; try reflexivity. simpl.
  destruct (py_get err "message"); reflexivity.
Qed.

Lemma delete_request_outcome url log :
  fst (_delete_request server self url log)
  = outcome_200 (server log (delete_req self url)).
Proof.
  unfold _delete_request, outcome_200. run_io. fold (delete_req self url).
  destruct (status_code _ =? 200); destruct (resp_json _) as [b|];
    try reflexivity.
  destruct (py_get b "error") as [err|]; try reflexivity. simpl.
  destruct (py_get err "message"); reflexivity.
Qed.

Lemma outcome_200_mapping resp :
  status_mapping (fun s => s =? 200) false resp (outcome_200 resp).
Proof.
  unfold status_mapping, outcome_200. cbv beta.
  destruct (status_code resp =? 200) eqn:Hs.
  - split; [|split].
    + intros v. destruct (resp_json resp); split.
      * intros [= ->]. auto.
      * intros [_ H]. now injection H as ->.
      * discriminate.
      * intros [_ H]; discriminate H.
    + intros e. destruct (resp_json resp); discriminate.
    + discriminate.
  - split; [|split].
    + intros v. split; [|intros [H _]; discriminate H].
      destruct (resp_json resp) as [b|]; [|discriminate].
      destruct (py_get b "error") as [err|]; [|discriminate].
      destruct (py_get err "message"); discriminate.
    + intros e.
      destruct (resp_json resp) as [b|]; [|discriminate].
      destruct b; simpl; try discriminate.
      destruct (Dict.get_or_none "error" d); simpl; try discriminate.
      intros [= <-]. auto.
    + intros body err _ Hb He _. rewrite Hb. simpl.
      assert (Hg : Dict.get_or_none "error" body = VDict err)
        by (unfold Dict.get_or_none; now rewrite He).
      rewrite Hg. reflexivity.
Qed.

Lemma post_request_outcome url data log :
  fst (_post_request server self url data log)
  = outcome_post (server log (post_req self url data)).
Proof.
  unfold _post_request, outcome_post. run_io. fold (post_req self url data).
  destruct (_ || _); destruct (resp_json _) as [b|]; try reflexivity.
  destruct (py_get b "error") as [err|]; try reflexivity. simpl.
  destruct (py_contains "message" err) as [[|]|]; try reflexivity. simpl.
  destruct (py_get err "message"); reflexivity.
Qed.

Lemma outcome_post_mapping resp :
  status_mapping (fun s => (s =? 200) || (s =? 201)) true resp
    (outcome_post resp).
Proof.
  unfold status_mapping, outcome_post. cbv beta.
  destruct ((status_code resp =? 200) || (status_code resp =? 201)) eqn:Hs.
  - split; [|split].
    + intros v. destruct (resp_json resp); split.
      * intros [= ->]. auto.
      * intros [_ H]. now injection H as ->.
      * discriminate.
      * intros [_ H]; discriminate H.
    + intros e. destruct (resp_json resp); discriminate.
    + discriminate.
  - split; [|split].
    + intros v. split; [|intros [H _]; discriminate H].
      destruct (resp_json resp) as [b|]; [|discriminate].
      destruct b; simpl; try discriminate.
      destruct (Dict.get_or_none "error" d) as [| | | s |l|err]; simpl;
        try discriminate.
      * destruct (substring "message" s); discriminate.
      * destruct (existsb _ l); discriminate.
      * destruct (Dict.mem "message" err); discriminate.
    + intros e.
      destruct (resp_json resp) as [b|]; [|discriminate].
      destruct b; simpl; try discriminate.
      destruct (Dict.get_or_none "error" d) as [| | | s |l|err]; simpl;
        try discriminate.
      * destruct (substring "message" s); discriminate.
      * destruct (existsb _ l); discriminate.
      * destruct (Dict.mem "message" err); [|discriminate].
        intros [= <-]. auto.
    + intros body err _ Hb He Hm. rewrite Hb. simpl.
      assert (Hg : Dict.get_or_none "error" body = VDict err)
        by (unfold Dict.get_or_none; now rewrite He).
      rewrite Hg. simpl. rewrite (Hm eq_refl). reflexivity.
Qed.

(** C1, as the code has it.  Each wrapper returns the decoded body
    exactly when the status is a success status of its verb (200 for GET,
    PUT and DELETE; 200 or 201 for POST) and the body decodes; a
    [ForemanError] is raised only on another status and then stores the
    status of the response; and on another status it is raised whenever
    the body decodes to a mapping whose [error] entry is a mapping (for
    POST: one that has a [message] key). *)
Theorem verb_wrappers_status_mapping url data log :
  status_mapping (fun s => s =? 200) false
    (server log (get_req self url data))
    (fst (_get_request server self url data log))
  /\ status_mapping (fun s => s =? 200) false
       (server log (put_req self url data))
       (fst (_put_request server self url data log))
  /\ status_mapping (fun s => s =? 200) false
       (server log (delete_req self url))
       (fst (_delete_request server self url log))
  /\ status_mapping (fun s => (s =? 200) || (s =? 201)) true
       (server log (post_req self url data))
       (fst (_post_request server self url data log)).
Proof.
  rewrite get_request_outcome, put_request_outcome, delete_request_outcome,
    post_request_outcome.
  split; [|split; [|split]];
    solve [apply outcome_200_mapping | apply outcome_post_mapping].
Qed.

End Transport.

(** C1, as stated, fails: a GET answered with status 500 and the JSON body
    [{"status": 500, "error": "Internal Server Error"}], whose [error]
    entry is a string, raises [AttributeError] ([.get('message')] on the
    string), not a [ForemanError] storing 500. *)
Lemma get_request_error_not_mapping_not_ForemanError :
  let out :=
    fst (_get_request (always internal_error) foreman0
           "https://foreman.example.com:443/api/v2/hosts" VNone []) in
  status_code internal_error <> 200
  /\ out = Raise AttributeError
  /\ ~ (exists e, out = Raise (Foreman_Error e)
                  /\ error_status_code e = status_code internal_error).
Proof.
  cbv zeta. split; [discriminate|]. split; [reflexivity|].
  intros [e [H _]]. discriminate H.
Qed.

(** The DELETE of a domain answered with 404 and
    [{"error": {"message": "not found"}}] raises the [ForemanError] with
    status 404 and message ["not found"]. *)
Lemma verb_wrappers_status_mapping_witness :
  fst (_delete_request (always not_found) foreman0
         "https://foreman.example.com:443/api/v2/domains/3" [])
  = Raise (Foreman_Error
             {| error_url := "https://foreman.example.com:443/api/v2/domains/3";
                error_request :=
                  VDict [("error", VDict [("message", VStr "not found")])];
                error_status_code := 404;
                error_message := VStr "not found" |}).
Proof.
  destruct (verb_wrappers_status_mapping (always not_found) foreman0
              "https://foreman.example.com:443/api/v2/domains/3" VNone [])
    as (_ & _ & (_ & _ & H) & _).
  apply (H [("error", VDict [("message", VStr "not found")])]
           [("message", VStr "not found")]).
  - reflexivity.
  - reflexivity.
  - reflexivity.
  - discriminate.
Defined.

(** ** The message of a failed POST *)

(** With a [message] entry in the error object the code and the
    specification agree on the message. *)
Lemma post_request_message_agrees server self url data log body err :
  let resp := server log (post_req self url data) in
  (status_code resp =? 200) || (status_code resp =? 201) = false ->
  resp_json resp = Some (VDict body) ->
  Dict.get "error" body = Some (VDict err) ->
  Dict.mem "message" err = true ->
  exists msg,
    spec_error_message err = Ok msg
    /\ fst (_post_request server self url data log)
       = Raise (Foreman_Error
                  {| error_url := resp_url resp;
                     error_request := VDict body;
                     error_status_code := status_code resp;
                     error_message := msg |}).
Proof.
  intros resp Hs Hb He Hm.
  exists (Dict.get_or_none "message" err). split.
  - unfold spec_error_message. now rewrite Hm.
  - rewrite post_request_outcome.
    now apply (outcome_post_mapping resp).
Qed.

(** Without a [message] entry the test of [full_messages] goes through
    [has_key] and raises: no [ForemanError] is built, whatever else the
    error object holds. *)
Lemma post_request_without_message server self url data log body err :
  let resp := server log (post_req self url data) in
  (status_code resp =? 200) || (status_code resp =? 201) = false ->
  resp_json resp = Some (VDict body) ->
  Dict.get "error" body = Some (VDict err) ->
  Dict.mem "message" err = false ->
  fst (_post_request server self url data log) = Raise AttributeError.
Proof.
  intros resp Hs Hb He Hm.
  rewrite post_request_outcome. unfold outcome_post. fold resp.
  rewrite Hs, Hb. simpl.
  assert (Hg : Dict.get_or_none "error" body = VDict err)
    by (unfold Dict.get_or_none; now rewrite He).
  rewrite Hg. simpl. now rewrite Hm.
Qed.

(** C2 at the failing input: a POST answered with 422 and
    [{"error": {"full_messages": [..., ...]}}].  The specification asks for
    a [ForemanError] whose message is the two messages joined with [", "];
    the code raises [AttributeError]. *)
Theorem post_request_full_messages_raises :
  spec_error_message [("full_messages", taken_messages)]
  = Ok (VStr "Name has already been taken, Fullname is invalid")
  /\ fst (_post_request (always unprocessable) foreman0
            "https://foreman.example.com:443/api/v2/domains"
            (VDict [("domain", VDict [("name", VStr "example.com")])]) [])
     = Raise AttributeError.
Proof.
  split; reflexivity.
Qed.

(** ** The search query *)

Section SearchQuery.

Variable py_repr : value -> string.

Lemma clause_nonempty e : clause e <> EmptyString.
Proof.
  destruct e as [k v].
  assert (H : forall r, k ++ " == " ++ r <> EmptyString)
    by (intros r; apply append_nonempty_r; discriminate).
  destruct v; simpl; apply H.
Qed.

Lemma search_step_clause d acc k v :
  Dict.get k d = Some v -> filter_value v ->
  search_step py_repr d acc k
  = (if truthy (VStr acc) then acc ++ " AND " else acc) ++ clause (k, v).
Proof.
  intros Hg [[n ->]|[s ->]]; unfold search_step; rewrite Hg; simpl;
    now rewrite !append_assoc.
Qed.

Lemma fold_search_step d entries acc :
  (forall k v, In (k, v) entries ->
               Dict.get k d = Some v /\ filter_value v) ->
  fold_left (search_step py_repr d) (Dict.keys entries) acc
  = join_onto acc (map clause entries).
Proof.
  revert acc. induction entries as [|[k v] entries IH]; intros acc H.
  - reflexivity.
  - simpl. destruct (H k v (or_introl eq_refl)) as [Hg Hv].
    rewrite (search_step_clause _ _ _ _ Hg Hv).
    unfold join_onto in *. simpl. apply IH.
    intros k' v' Hin. apply H. now right.
Qed.

Lemma join_onto_nonempty clauses acc :
  acc <> EmptyString ->
  (forall c, In c clauses -> c <> EmptyString) ->
  join_onto acc clauses = String.concat " AND " (acc :: clauses).
Proof.
  revert acc. induction clauses as [|c cs IH]; intros acc Ha Hc.
  - reflexivity.
  - change (join_onto acc (c :: cs))
      with (join_onto
              ((if truthy (VStr acc) then acc ++ " AND " else acc) ++ c) cs).
    apply truthy_VStr in Ha as Ht. rewrite Ht.
    rewrite IH.
    + assert (Hne : c <> EmptyString) by (apply Hc; now left).
      change (String.concat " AND " (acc :: c :: cs))
        with (acc ++ " AND " ++ String.concat " AND " (c :: cs)).
      destruct cs as [|c' cs]; simpl; now rewrite !append_assoc.
    + apply append_nonempty_r. apply Hc. now left.
    + intros c' Hin. apply Hc. now right.
Qed.

Lemma join_onto_empty clauses :
  (forall c, In c clauses -> c <> EmptyString) ->
  join_onto EmptyString clauses = String.concat " AND " clauses.
Proof.
  destruct clauses as [|c cs]; intros Hc; [reflexivity|].
  change (join_onto EmptyString (c :: cs)) with (join_onto c cs).
  apply join_onto_nonempty.
  - apply Hc. now left.
  - intros c' Hin. apply Hc. now right.
Qed.

(** C6.  For a filter mapping whose values are strings or integers, the
    query is the clauses [key == value] of its entries, in the order of
    the mapping, strings in double quotes and integers bare, joined with
    [" AND "]; the empty mapping gives the empty string; and this query
    is what [search_resource] sends as [search]. *)
Theorem search_query_clauses (d : dict) :
  Dict.wf d ->
  (forall k v, In (k, v) d -> filter_value v) ->
  search_query py_repr d = String.concat " AND " (map clause d)
  /\ search_query py_repr [] = EmptyString
  /\ (forall server self rt log,
        snd (search_resource py_repr server self rt d log)
        = (log ++ [get_req self (url self ++ "/" ++ rt)
                     (VDict [("search",
                              VStr (String.concat " AND " (map clause d)))])
          ])%list).
Proof.
  intros Hwf Hv.
  assert (Hq : search_query py_repr d
               = String.concat " AND " (map clause d)).
  { unfold search_query. rewrite fold_search_step.
    - apply join_onto_empty. intros c Hin.
      apply in_map_iff in Hin as [e [<- _]]. apply clause_nonempty.
    - intros k v Hin. split; [now apply DictFacts.get_In | eauto]. }
  split; [exact Hq|]. split; [reflexivity|].
  intros server self rt log. rewrite <- Hq.
  unfold search_resource.
  rewrite (url_falsy_id py_repr self rt VNone None VNone eq_refl).
  unfold bind at 1.
  pose proof (get_request_log server self (url self ++ "/" ++ rt)
                (VDict [("search", VStr (search_query py_repr d))]) log)
    as Hlog.
  destruct (_get_request _ _ _ _ log) as [[results|e] log'];
    simpl in Hlog; subst log'; [|reflexivity].
  run_io. destruct (py_get results "results") as [result|]; [|reflexivity].
  destruct (py_len result) as [n|]; [|reflexivity].
  destruct (n =? 1); [|reflexivity].
  destruct (py_item0 result); reflexivity.
Qed.

End SearchQuery.

(** The query of the specification's example,
    [{"name": "x", "id": 5}]. *)
Lemma search_query_clauses_witness :
  search_query no_repr [("name", VStr "x"); ("id", VInt 5)]
  = "name == " ++ dquote ++ "x" ++ dquote ++ " AND id == 5".
Proof.
  destruct (search_query_clauses no_repr [("name", VStr "x"); ("id", VInt 5)])
    as [H _].
  - repeat constructor; simpl; intuition discriminate.
  - intros k v [[= <- <-]|[[= <- <-]|[]]];
      [right; now exists "x" | left; now exists 5].
  - rewrite H. reflexivity.
Defined.

(** ** Search and lookup of a resource *)

Section Resources.

Variable py_repr : value -> string.
Variable server : list request -> request -> response.
Variable self : Foreman.

Lemma get_request_run url data log :
  _get_request server self url data log
  = (outcome_200 (server log (get_req self url data)),
     (log ++ [get_req self url data])%list).
Proof.
  rewrite (surjective_pairing (_get_request server self url data log)).
  now rewrite get_request_outcome, get_request_log.
Qed.

Lemma search_resource_run rt sd log :
  search_resource py_repr server self rt sd log
  = let req := search_req py_repr self rt sd in
    let log' := (log ++ [req])%list in
    match outcome_200 (server log req) with
    | Raise e => (Raise e, log')
    | Ok results =>
        match py_get results "results" with
        | Raise e => (Raise e, log')
        | Ok result =>
            match py_len result with
            | Raise e => (Raise e, log')
            | Ok n =>
                if n =? 1 then (py_item0 result, log') else (Ok result, log')
            end
        end
    end.
Proof.
  unfold search_resource, search_req.
  rewrite (url_falsy_id py_repr self rt VNone None VNone eq_refl).
  unfold bind at 1. rewrite get_request_run. cbv zeta.
  destruct (outcome_200 _) as [results|e]; [|reflexivity].
  run_io. destruct (py_get results "results") as [result|]; [|reflexivity].
  destruct (py_len result) as [n|]; [|reflexivity].
  destruct (n =? 1); reflexivity.
Qed.

(** The outcome of a search that the server answers with status 200 and a
    body whose [results] entry is the list [l]. *)
Lemma search_resource_results rt sd log body l :
  let resp := server log (search_req py_repr self rt sd) in
  status_code resp = 200 ->
  resp_json resp = Some (VDict body) ->
  Dict.get "results" body = Some (VList l) ->
  search_resource py_repr server self rt sd log
  = (Ok (match l with [x] => x | _ => VList l end),
     (log ++ [search_req py_repr self rt sd])%list).
Proof.
  intros resp Hs Hb Hr. rewrite search_resource_run. cbv zeta. fold resp.
  unfold outcome_200. rewrite Hs, Hb. simpl.
  assert (Hg : Dict.get_or_none "results" body = VList l)
    by (unfold Dict.get_or_none; now rewrite Hr).
  rewrite Hg. simpl.
  destruct l as [|x [|y l]]; try reflexivity.
  destruct (Z.eqb_spec (Z.of_nat (List.length (x :: y :: l))) 1) as [E|_];
    [|reflexivity].
  simpl List.length in E. lia.
Qed.

(** C4.  When the server answers the search with status 200 and a
    [results] list, [search_resource] returns the single element itself if
    the list has exactly one, and the list unchanged if it has none or two
    or more. *)
Theorem search_resource_collapse rt sd log body l :
  let resp := server log (search_req py_repr self rt sd) in
  status_code resp = 200 ->
  resp_json resp = Some (VDict body) ->
  Dict.get "results" body = Some (VList l) ->
  (forall x, l = [x] ->
             fst (search_resource py_repr server self rt sd log) = Ok x)
  /\ (List.length l <> 1%nat ->
      fst (search_resource py_repr server self rt sd log) = Ok (VList l)).
Proof.
  intros resp Hs Hb Hr.
  rewrite (search_resource_results rt sd log body l Hs Hb Hr). simpl.
  split.
  - intros x ->. reflexivity.
  - intros Hn. destruct l as [|x [|y l]]; simpl in *; congruence.
Qed.

(** [get_resource] when the identifier has an [id]: no search; the
    single-resource GET when the id is true, [None] otherwise. *)
Lemma get_resource_by_id rt data rid log :
  Dict.get "id" data = Some rid ->
  get_resource py_repr server self rt data log
  = if truthy rid then
      _get_request server self
        (url self ++ "/" ++ rt ++ "/" ++ py_str py_repr rid) VNone log
    else (Ok VNone, log).
Proof.
  intros Hid. unfold get_resource, Dict.mem, Dict.get_or_none.
  rewrite Hid. run_io.
  destruct (truthy rid) eqn:Ht; [|reflexivity].
  now rewrite (url_id_only py_repr self rt rid VNone Ht).
Qed.

Lemma get_resource_no_id_no_name rt data log :
  Dict.mem "id" data = false -> Dict.mem "name" data = false ->
  get_resource py_repr server self rt data log = (Ok VNone, log).
Proof.
  intros Hi Hn. unfold get_resource. rewrite Hi, Hn. reflexivity.
Qed.

Lemma get_resource_no_match rt data log body :
  let resp := server log (search_req py_repr self rt data) in
  Dict.mem "id" data = false -> Dict.mem "name" data = true ->
  status_code resp = 200 ->
  resp_json resp = Some (VDict body) ->
  Dict.get "results" body = Some (VList []) ->
  get_resource py_repr server self rt data log
  = (Ok VNone, (log ++ [search_req py_repr self rt data])%list).
Proof.
  intros resp Hi Hn Hs Hb Hr. unfold get_resource. rewrite Hi, Hn.
  unfold bind at 1. unfold bind at 1.
  rewrite (search_resource_results rt data log body [] Hs Hb Hr).
  reflexivity.
Qed.

(** Two or more matches: the list of matches is true, and [.get] is
    called on it. *)
Lemma get_resource_many_matches rt data log body x y l :
  let resp := server log (search_req py_repr self rt data) in
  Dict.mem "id" data = false -> Dict.mem "name" data = true ->
  status_code resp = 200 ->
  resp_json resp = Some (VDict body) ->
  Dict.get "results" body = Some (VList (x :: y :: l)) ->
  get_resource py_repr server self rt data log
  = (Raise AttributeError,
     (log ++ [search_req py_repr self rt data])%list).
Proof.
  intros resp Hi Hn Hs Hb Hr. unfold get_resource. rewrite Hi, Hn.
  unfold bind at 1. unfold bind at 1.
  rewrite (search_resource_results rt data log body _ Hs Hb Hr).
  reflexivity.
Qed.

(** One match with a true [id]: the single-resource GET follows the
    search. *)
Lemma get_resource_single_match rt data log body r rid :
  let resp := server log (search_req py_repr self rt data) in
  Dict.mem "id" data = false -> Dict.mem "name" data = true ->
  status_code resp = 200 ->
  resp_json resp = Some (VDict body) ->
  Dict.get "results" body = Some (VList [VDict r]) ->
  Dict.get "id" r = Some rid -> truthy rid = true ->
  get_resource py_repr server self rt data log
  = _get_request server self
      (url self ++ "/" ++ rt ++ "/" ++ py_str py_repr rid) VNone
      (log ++ [search_req py_repr self rt data])%list.
Proof.
  intros resp Hi Hn Hs Hb Hr Hid Ht. unfold get_resource. rewrite Hi, Hn.
  unfold bind at 1. unfold bind at 1.
  rewrite (search_resource_results rt data log body _ Hs Hb Hr).
  assert (Hr0 : truthy (VDict r) = true)
    by (destruct r; [discriminate Hid | reflexivity]).
  rewrite Hr0. run_io. unfold Dict.get_or_none. rewrite Hid, Ht.
  now rewrite (url_id_only py_repr self rt rid VNone Ht).
Qed.

End Resources.

(** ** The generic operations *)

Section Facade.

Variable py_repr : value -> string.
Variable server : list request -> request -> response.
Variable self : Foreman.

(** C3, as the code has it.  With an [id] in the identifier the id is
    used directly and no search is issued: the only request is the GET of
    the single-resource URL, and there is none when the id is false.
    Without an [id] but with a [name], the search by the identifier's
    fields is issued, and when it is answered with status 200 and no
    match the result is [None].  With neither [id] nor [name] the result
    is [None] and nothing is requested. *)
Theorem get_resource_resolution rt data log :
  (forall rid,
      Dict.get "id" data = Some rid ->
      get_resource py_repr server self rt data log
      = (if truthy rid then
           _get_request server self
             (url self ++ "/" ++ rt ++ "/" ++ py_str py_repr rid) VNone log
         else (Ok VNone, log))
      /\ snd (get_resource py_repr server self rt data log)
         = (if truthy rid then
              (log ++ [get_req self
                         (url self ++ "/" ++ rt ++ "/" ++ py_str py_repr rid)
                         VNone])%list
            else log))
  /\ (forall body,
        Dict.mem "id" data = false -> Dict.mem "name" data = true ->
        status_code (server log (search_req py_repr self rt data)) = 200 ->
        resp_json (server log (search_req py_repr self rt data))
        = Some (VDict body) ->
        Dict.get "results" body = Some (VList []) ->
        get_resource py_repr server self rt data log
        = (Ok VNone, (log ++ [search_req py_repr self rt data])%list))
  /\ (Dict.mem "id" data = false -> Dict.mem "name" data = false ->
      get_resource py_repr server self rt data log = (Ok VNone, log)).
Proof.
  split; [|split].
  - intros rid Hid.
    rewrite (get_resource_by_id py_repr server self rt data rid log Hid).
    split; [reflexivity|].
    destruct (truthy rid); [apply get_request_log | reflexivity].
  - intros body Hi Hn Hs Hb Hr. now apply get_resource_no_match with body.
  - apply get_resource_no_id_no_name.
Qed.

(** C9.  Presence is tested by truth value: [0], the empty string and
    [None] are all false; a false resource id leaves the URL at
    [base/resource_type] whatever the component and its id are; an empty
    component and a false component id are left out as well; and so
    [get_resource] with an identifier whose [id] is false, [{"id": 0}] in
    particular, returns [None] and issues no request. *)
Theorem falsy_resource_id_omitted rt log :
  (truthy (VInt 0) = false /\ truthy (VStr EmptyString) = false
   /\ truthy VNone = false)
  /\ (forall rid comp cid,
        truthy rid = false ->
        _get_resource_url py_repr self rt rid comp cid
        = url self ++ "/" ++ rt)
  /\ (forall rid cid,
        _get_resource_url py_repr self rt rid (Some EmptyString) cid
        = _get_resource_url py_repr self rt rid None cid)
  /\ (forall rid comp cid,
        truthy cid = false ->
        _get_resource_url py_repr self rt rid comp cid
        = _get_resource_url py_repr self rt rid comp VNone)
  /\ (forall data rid,
        Dict.get "id" data = Some rid -> truthy rid = false ->
        get_resource py_repr server self rt data log = (Ok VNone, log))
  /\ get_resource py_repr server self rt [("id", VInt 0)] log
     = (Ok VNone, log).
Proof.
  split; [repeat split|]. split; [|split; [|split; [|split]]].
  - intros rid comp cid H. now apply url_falsy_id.
  - intros rid cid. reflexivity.
  - intros rid comp cid H. unfold _get_resource_url. rewrite H. reflexivity.
  - intros data rid Hid Hf.
    rewrite (get_resource_by_id py_repr server self rt data rid log Hid).
    now rewrite Hf.
  - reflexivity.
Qed.

(** C8.  With a numeric [id] in the identifier, [delete_resource] issues
    exactly one request, the DELETE of [base/resource_type/id], whatever
    else the identifier holds: no search is part of it. *)
Theorem delete_resource_request rt data n log :
  Dict.get "id" data = Some (VInt n) ->
  snd (delete_resource py_repr server self rt data log)
  = (log ++ [delete_req self (url self ++ "/" ++ rt ++ "/" ++ str_of_Z n)])%list
  /\ fst (delete_resource py_repr server self rt data log)
     = outcome_200
         (server log
            (delete_req self (url self ++ "/" ++ rt ++ "/" ++ str_of_Z n))).
Proof.
  intros Hid. unfold delete_resource, Dict.get_or_none. rewrite Hid.
  cbv zeta. change (py_str py_repr (VInt n)) with (str_of_Z n).
  rewrite (url_id_only py_repr self rt (VStr (str_of_Z n)) VNone
             (truthy_str_of_Z n)).
  change (py_str py_repr (VStr (str_of_Z n))) with (str_of_Z n).
  split; [apply delete_request_log | apply delete_request_outcome].
Qed.

(** Whatever the identifier holds, the one request of [delete_resource]
    is a DELETE. *)
Lemma delete_resource_one_request rt data log :
  exists u,
    snd (delete_resource py_repr server self rt data log)
    = (log ++ [delete_req self u])%list.
Proof.
  unfold delete_resource. eexists. apply delete_request_log.
Qed.

End Facade.

(** ** The body of a create request *)

Section Create.

Variable py_repr : value -> string.
Variable server : list request -> request -> response.
Variable self : Foreman.

Lemma copy_step_get ad acc key k :
  Dict.mem key ad = true ->
  Dict.get k (copy_step ad acc key)
  = if String.eqb k key then Dict.get key ad else Dict.get k acc.
Proof.
  unfold copy_step, Dict.mem. intros Hm.
  destruct (Dict.get key ad) as [v|] eqn:Hg; [|discriminate].
  destruct (String.eqb_spec k key) as [->|Hne].
  - apply DictFacts.get_set_same.
  - now apply DictFacts.get_set_other.
Qed.

Lemma fold_copy_get ad ks : forall acc k,
  (forall key, In key ks -> Dict.mem key ad = true) ->
  Dict.get k (fold_left (copy_step ad) ks acc)
  = if in_dec string_dec k ks then Dict.get k ad else Dict.get k acc.
Proof.
  induction ks as [|key ks IH]; intros acc k H; [reflexivity|].
  cbn [fold_left]. rewrite IH by (intros; apply H; now right).
  assert (Hkey : Dict.mem key ad = true) by (apply H; now left).
  destruct (in_dec string_dec k ks) as [Hin|Hnin];
    destruct (in_dec string_dec k (key :: ks)) as [Hin'|Hnin'];
    try reflexivity.
  - exfalso. apply Hnin'. now right.
  - rewrite (copy_step_get _ _ _ _ Hkey).
    destruct Hin' as [->|Hin']; [|contradiction].
    now rewrite String.eqb_refl.
  - rewrite (copy_step_get _ _ _ _ Hkey).
    destruct (String.eqb_spec k key) as [->|_]; [|reflexivity].
    exfalso. apply Hnin'. now left.
Qed.

Lemma fold_copy_wf ad ks : forall acc,
  Dict.wf acc -> Dict.wf (fold_left (copy_step ad) ks acc).
Proof.
  induction ks as [|key ks IH]; intros acc H; [exact H|].
  cbn [fold_left]. apply IH. unfold copy_step.
  destruct (Dict.get key ad); [now apply DictFacts.wf_set | exact H].
Qed.

(** The entries copied from [additional_data] are those of
    [additional_data]. *)
Lemma copy_all_get ad k :
  Dict.get k (fold_left (copy_step ad) (Dict.keys ad) []) = Dict.get k ad.
Proof.
  rewrite fold_copy_get by (intros key; apply DictFacts.mem_In).
  destruct (in_dec string_dec k (Dict.keys ad)) as [_|Hnin]; [reflexivity|].
  simpl. pose proof (DictFacts.mem_In k ad) as Hm. unfold Dict.mem in Hm.
  destruct (Dict.get k ad); [|reflexivity].
  exfalso. apply Hnin, Hm. reflexivity.
Qed.

Lemma post_resource_data_wf resource data extra :
  Dict.wf (post_resource_data resource data extra).
Proof.
  unfold post_resource_data. apply DictFacts.wf_set.
  destruct extra as [ad|]; [|constructor].
  destruct (truthy (VDict ad)); [|constructor].
  apply fold_copy_wf. constructor.
Qed.

Lemma post_resource_data_wrapper resource data extra :
  Dict.get resource (post_resource_data resource data extra) = Some data.
Proof. apply DictFacts.get_set_same. Qed.

Lemma post_resource_data_other resource data extra k :
  k <> resource ->
  Dict.get k (post_resource_data resource data extra)
  = Dict.get k (extra_entries extra).
Proof.
  intros Hne. unfold post_resource_data.
  rewrite DictFacts.get_set_other by assumption.
  destruct extra as [ad|]; [|reflexivity].
  destruct ad as [|e ad]; [reflexivity|].
  change (truthy (VDict (e :: ad))) with true. cbv iota.
  apply copy_all_get.
Qed.

Lemma post_resource_run rt resource data extra log :
  post_resource py_repr server self rt resource data extra log
  = let req := post_req self (url self ++ "/" ++ rt)
                 (VDict (post_resource_data resource data extra)) in
    (outcome_post (server log req), (log ++ [req])%list).
Proof.
  unfold post_resource. cbv zeta.
  rewrite (url_falsy_id py_repr self rt VNone None VNone eq_refl).
  rewrite (surjective_pairing (_post_request _ _ _ _ _)).
  now rewrite post_request_outcome, post_request_log.
Qed.

(** C7.  [post_resource] issues one request, a POST to
    [base/resource_type] whose body holds the payload under the wrapper
    key and, under every other key, what the extra mapping holds under
    it; when the server answers with 200 or 201 and a body that decodes,
    that decoded body is the result. *)
Theorem post_resource_request rt resource data extra log :
  let body := post_resource_data resource data extra in
  let req := post_req self (url self ++ "/" ++ rt) (VDict body) in
  snd (post_resource py_repr server self rt resource data extra log)
  = (log ++ [req])%list
  /\ Dict.get resource body = Some data
  /\ (forall k, k <> resource ->
                Dict.get k body = Dict.get k (extra_entries extra))
  /\ (forall v,
        status_code (server log req) = 200
        \/ status_code (server log req) = 201 ->
        resp_json (server log req) = Some v ->
        fst (post_resource py_repr server self rt resource data extra log)
        = Ok v).
Proof.
  cbv zeta. rewrite post_resource_run. cbv zeta. cbn [fst snd].
  split; [reflexivity|].
  split; [apply post_resource_data_wrapper|].
  split; [intros k; apply post_resource_data_other|].
  intros v Hs Hb. unfold outcome_post. rewrite Hb.
  destruct Hs as [Hs|Hs]; rewrite Hs; reflexivity.
Qed.

(** C10.  When the extra mapping has an entry under the wrapper key, the
    body that is posted holds the payload there: the payload is the only
    value the body has under the wrapper key, building the body raises
    nothing, and the other entries of the extra mapping are kept. *)
Theorem post_resource_wrapper_key_overwritten rt resource data ad v0 log :
  Dict.get resource ad = Some v0 ->
  let body := post_resource_data resource data (Some ad) in
  Dict.get resource body = Some data
  /\ (forall v, In (resource, v) body -> v = data)
  /\ (forall k, k <> resource -> Dict.get k body = Dict.get k ad)
  /\ snd (post_resource py_repr server self rt resource data (Some ad) log)
     = (log ++ [post_req self (url self ++ "/" ++ rt) (VDict body)])%list.
Proof.
  intros Hv0 body. subst body.
  split; [apply post_resource_data_wrapper|].
  split; [|split].
  - intros v Hin.
    apply (DictFacts.get_In _ _ _ (post_resource_data_wf _ _ _)) in Hin.
    rewrite post_resource_data_wrapper in Hin. congruence.
  - intros k Hk.
    apply (post_resource_data_other resource data (Some ad) k Hk).
  - rewrite post_resource_run. reflexivity.
Qed.

End Create.

(** ** The properties at concrete inputs *)


(** C3, as stated, fails: the identifier [{"title": "web"}] has no [id],
    and yet [get_resource] issues no search (no request at all) and
    returns [None]. *)
Lemma get_resource_without_name_no_search :
  let data := [("title", VStr "web")] in
  let run :=
    get_resource no_repr (always one_result) foreman0 "hosts" data [] in
  Dict.mem "id" data = false
  /\ run = (Ok VNone, [])
  /\ ~ (exists r, In r (snd run) /\ is_search r).
Proof.
  cbv zeta. split; [reflexivity|]. split; [reflexivity|].
  intros [r [[] _]].
Qed.

(** [get_resource("hosts", {"name": "h1"})] when the search finds nothing:
    one request, the search, and the result [None]. *)
Lemma get_resource_resolution_witness :
  get_resource no_repr (always no_results) foreman0 "hosts"
    [("name", VStr "h1")] []
  = (Ok VNone,
     [search_req no_repr foreman0 "hosts" [("name", VStr "h1")]]).
Proof.
  destruct (get_resource_resolution no_repr (always no_results) foreman0
              "hosts" [("name", VStr "h1")] []) as (_ & H & _).
  apply (H [("results", VList [])]); reflexivity.
Defined.

(** [get_resource("hosts", {"name": "h"})] when the search finds two hosts:
    [.get] is called on the list of matches. *)
Example get_resource_two_matches_raises :
  fst (get_resource no_repr
         (always {| resp_url := "https://foreman.example.com:443/api/v2/hosts";
                    status_code := 200;
                    resp_json :=
                      Some (VDict [("results",
                                    VList [VDict [("id", VInt 7)];
                                           VDict [("id", VInt 8)]])]) |})
         foreman0 "hosts" [("name", VStr "h")] [])
  = Raise AttributeError.
Proof. reflexivity. Qed.

(** The specification's scenario: [get_resource("hosts", {"name": "h1"})]
    with one match of id 7 issues the search for [name == "h1"] and then
    the GET of [.../hosts/7]. *)
Example get_resource_one_match_requests :
  snd (get_resource no_repr (always one_result) foreman0 "hosts"
         [("name", VStr "h1")] [])
  = [get_req foreman0 "https://foreman.example.com:443/api/v2/hosts"
       (VDict [("search", VStr ("name == " ++ dquote ++ "h1" ++ dquote))]);
     get_req foreman0 "https://foreman.example.com:443/api/v2/hosts/7" VNone].
Proof. reflexivity. Qed.

(** A search answered with one host returns the host, not a list. *)
Lemma search_resource_collapse_witness :
  fst (search_resource no_repr (always one_result) foreman0 "hosts"
         [("name", VStr "h1")] [])
  = Ok (VDict [("id", VInt 7); ("name", VStr "h1")]).
Proof.
  pose proof (search_resource_collapse no_repr (always one_result) foreman0
                "hosts" [("name", VStr "h1")] []
                [("results",
                  VList [VDict [("id", VInt 7); ("name", VStr "h1")]])]
                [VDict [("id", VInt 7); ("name", VStr "h1")]]
                eq_refl eq_refl eq_refl) as [H _].
  exact (H _ eq_refl).
Defined.

(** The specification's scenario:
    [post_resource("domains", "domain", {"name": "example.com"})] answered
    with 201 returns the body of the response. *)
Lemma post_resource_request_witness :
  post_resource no_repr (always created) foreman0 "domains" "domain"
    (VDict [("name", VStr "example.com")]) None []
  = (Ok (VDict [("id", VInt 3); ("name", VStr "example.com")]),
     [post_req foreman0 "https://foreman.example.com:443/api/v2/domains"
        (VDict [("domain", VDict [("name", VStr "example.com")])])]).
Proof.
  destruct (post_resource_request no_repr (always created) foreman0 "domains"
              "domain" (VDict [("name", VStr "example.com")]) None [])
    as (Hlog & _ & _ & Hret).
  rewrite (surjective_pairing (post_resource _ _ _ _ _ _ _ _)).
  rewrite Hlog.
  rewrite (Hret (VDict [("id", VInt 3); ("name", VStr "example.com")]));
    [reflexivity | now right | reflexivity].
Defined.

(** [delete_resource("domains", {"name": "example.com", "id": 3})] issues
    the DELETE of [.../domains/3] and nothing else. *)
Lemma delete_resource_request_witness :
  snd (delete_resource no_repr (always not_found) foreman0 "domains"
         [("name", VStr "example.com"); ("id", VInt 3)] [])
  = [delete_req foreman0 "https://foreman.example.com:443/api/v2/domains/3"].
Proof.
  destruct (delete_resource_request no_repr (always not_found) foreman0
              "domains" [("name", VStr "example.com"); ("id", VInt 3)] 3 [])
    as [H _]; [reflexivity|].
  rewrite H. reflexivity.
Defined.

(** [get_resource("hosts", {"id": ""})] returns [None] without a request. *)
Lemma falsy_resource_id_omitted_witness :
  get_resource no_repr (always one_result) foreman0 "hosts"
    [("id", VStr EmptyString)] []
  = (Ok VNone, []).
Proof.
  destruct (falsy_resource_id_omitted no_repr (always one_result) foreman0
              "hosts" []) as (_ & _ & _ & _ & H & _).
  apply (H [("id", VStr EmptyString)] (VStr EmptyString)); reflexivity.
Defined.

(** An extra mapping that has the wrapper key [compute_attribute]: the body
    holds the payload there, and the request goes out. *)
Lemma post_resource_wrapper_key_overwritten_witness :
  let extra := [("compute_attribute", VStr "stale");
                ("compute_profile_id", VInt 2)] in
  let payload := VDict [("vm_attrs", VDict [("cpus", VInt 4)])] in
  let body := post_resource_data "compute_attribute" payload (Some extra) in
  Dict.get "compute_attribute" extra = Some (VStr "stale")
  /\ body = [("compute_attribute", payload); ("compute_profile_id", VInt 2)]
  /\ Dict.get "compute_attribute" body = Some payload.
Proof.
  cbv zeta. split; [reflexivity|]. split; [reflexivity|].
  apply (post_resource_wrapper_key_overwritten no_repr (always created)
           foreman0 "compute_attributes" "compute_attribute"
           (VDict [("vm_attrs", VDict [("cpus", VInt 4)])])
           [("compute_attribute", VStr "stale"); ("compute_profile_id", VInt 2)]
           (VStr "stale") []).
  reflexivity.
Defined.

(** * Further properties of the generic operations *)

Section Operations.

Variable py_repr : value -> string.
Variable server : list request -> request -> response.
Variable self : Foreman.

Lemma put_request_run url data log :
  _put_request server self url data log
  = (outcome_200 (server log (put_req self url data)),
     (log ++ [put_req self url data])%list).
Proof.
  rewrite (surjective_pairing (_put_request server self url data log)).
  now rewrite put_request_outcome, put_request_log.
Qed.

Lemma delete_request_run url log :
  _delete_request server self url log
  = (outcome_200 (server log (delete_req self url)),
     (log ++ [delete_req self url])%list).
Proof.
  rewrite (surjective_pairing (_delete_request server self url log)).
  now rewrite delete_request_outcome, delete_request_log.
Qed.

Lemma get_resources_run rt log :
  get_resources py_repr server self rt log
  = let req := get_req self (url self ++ "/" ++ rt) VNone in
    (match outcome_200 (server log req) with
     | Ok request_result => py_get request_result "results"
     | Raise e => Raise e
     end, (log ++ [req])%list).
Proof.
  unfold get_resources.
  rewrite (url_falsy_id py_repr self rt VNone None VNone eq_refl).
  unfold bind. rewrite get_request_run. cbv zeta.
  destruct (outcome_200 _); reflexivity.
Qed.

Lemma put_resource_run rt rid data comp log :
  put_resource py_repr server self rt rid data comp log
  = let req :=
      put_req self (_get_resource_url py_repr self rt rid comp VNone) data in
    (outcome_200 (server log req), (log ++ [req])%list).
Proof. unfold put_resource. apply put_request_run. Qed.

(** X1.  [get_resources] issues one GET of [base/resource_type] without
    data.  Answered with status 200 and a mapping, it returns the [results]
    entry of the mapping, [None] when there is none; answered with status
    200 and a body that is not a mapping, it raises [AttributeError]. *)
Theorem get_resources_results rt log :
  let req := get_req self (url self ++ "/" ++ rt) VNone in
  snd (get_resources py_repr server self rt log) = (log ++ [req])%list
  /\ (forall body,
        status_code (server log req) = 200 ->
        resp_json (server log req) = Some (VDict body) ->
        fst (get_resources py_repr server self rt log)
        = Ok (Dict.get_or_none "results" body))
  /\ (forall v,
        status_code (server log req) = 200 ->
        resp_json (server log req) = Some v ->
        (forall d, v <> VDict d) ->
        fst (get_resources py_repr server self rt log)
        = Raise AttributeError).
Proof.
  cbv zeta. rewrite get_resources_run. cbv zeta. cbn [fst snd].
  split; [reflexivity|]. split.
  - intros body Hs Hb. unfold outcome_200. now rewrite Hs, Hb.
  - intros v Hs Hb Hv. unfold outcome_200. rewrite Hs, Hb. simpl.
    destruct v; try reflexivity. now contradiction (Hv d).
Qed.

Lemma outcome_200_without_error resp body :
  status_code resp <> 200 ->
  resp_json resp = Some (VDict body) ->
  Dict.mem "error" body = false ->
  outcome_200 resp = Raise AttributeError.
Proof.
  intros Hs Hb He. unfold outcome_200.
  apply Z.eqb_neq in Hs. rewrite Hs, Hb. simpl.
  unfold Dict.get_or_none. unfold Dict.mem in He.
  destruct (Dict.get "error" body); [discriminate|reflexivity].
Qed.

Lemma outcome_post_without_error resp body :
  status_code resp <> 200 -> status_code resp <> 201 ->
  resp_json resp = Some (VDict body) ->
  Dict.mem "error" body = false ->
  outcome_post resp = Raise TypeError.
Proof.
  intros Hs Hs' Hb He. unfold outcome_post.
  apply Z.eqb_neq in Hs, Hs'. rewrite Hs, Hs', Hb. simpl.
  unfold Dict.get_or_none. unfold Dict.mem in He.
  destruct (Dict.get "error" body); [discriminate|reflexivity].
Qed.

(** X2.  A failure response whose body is a mapping without an [error]
    entry gives no [ForemanError]: [.get('message')] is called on [None]
    and GET, PUT and DELETE raise [AttributeError]; POST tests
    ['message' in None] and raises [TypeError]. *)
Theorem failure_without_error_entry url data log body :
  Dict.mem "error" body = false ->
  (status_code (server log (get_req self url data)) <> 200 ->
   resp_json (server log (get_req self url data)) = Some (VDict body) ->
   fst (_get_request server self url data log) = Raise AttributeError)
  /\ (status_code (server log (put_req self url data)) <> 200 ->
      resp_json (server log (put_req self url data)) = Some (VDict body) ->
      fst (_put_request server self url data log) = Raise AttributeError)
  /\ (status_code (server log (delete_req self url)) <> 200 ->
      resp_json (server log (delete_req self url)) = Some (VDict body) ->
      fst (_delete_request server self url log) = Raise AttributeError)
  /\ (status_code (server log (post_req self url data)) <> 200 ->
      status_code (server log (post_req self url data)) <> 201 ->
      resp_json (server log (post_req self url data)) = Some (VDict body) ->
      fst (_post_request server self url data log) = Raise TypeError).
Proof.
  intros He.
  rewrite get_request_outcome, put_request_outcome, delete_request_outcome,
    post_request_outcome.
  repeat split; intros.
  - now apply outcome_200_without_error with body.
  - now apply outcome_200_without_error with body.
  - now apply outcome_200_without_error with body.
  - now apply outcome_post_without_error with body.
Qed.

(** X3.  No operation retries: whatever the server answers,
    [get_resources], [search_resource], [post_resource], [put_resource]
    and [delete_resource] each add exactly one request to the log, with
    the verb of the operation and the credentials of the client. *)
Theorem one_request_per_operation rt sd resource data extra rid comp
    ident log :
  issues (get_resources py_repr server self rt log) log
    [get_req self (url self ++ "/" ++ rt) VNone]
  /\ issues (search_resource py_repr server self rt sd log) log
       [search_req py_repr self rt sd]
  /\ issues (post_resource py_repr server self rt resource data extra log) log
       [post_req self (url self ++ "/" ++ rt)
          (VDict (post_resource_data resource data extra))]
  /\ issues (put_resource py_repr server self rt rid data comp log) log
       [put_req self (_get_resource_url py_repr self rt rid comp VNone) data]
  /\ (exists u,
        issues (delete_resource py_repr server self rt ident log) log
          [delete_req self u])
  /\ (forall u d, req_auth (get_req self u d) = auth self
                  /\ req_auth (post_req self u d) = auth self
                  /\ req_auth (put_req self u d) = auth self
                  /\ req_auth (delete_req self u) = auth self).
Proof.
  unfold issues.
  rewrite get_resources_run, search_resource_run, post_resource_run,
    put_resource_run. cbv zeta.
  split; [reflexivity|]. split.
  { destruct (outcome_200 _) as [results|]; [|reflexivity].
    destruct (py_get results "results") as [result|]; [|reflexivity].
    destruct (py_len result) as [n|]; [|reflexivity].
    destruct (n =? 1); reflexivity. }
  split; [reflexivity|]. split; [reflexivity|]. split.
  - apply delete_resource_one_request.
  - intros u d. repeat split.
Qed.

(** X4.  [put_resource] addresses [base/resource_type/id/component] when
    the id is true and the component is a non-empty string,
    [base/resource_type/id] when the id is true and there is no component,
    and the collection [base/resource_type] when the id is false, the
    component then being ignored; its result is the decoded body on status
    200 only. *)
Theorem put_resource_target rt rid data comp log :
  (truthy rid = false ->
   issues (put_resource py_repr server self rt rid data comp log) log
     [put_req self (url self ++ "/" ++ rt) data])
  /\ (truthy rid = true -> comp = None ->
      issues (put_resource py_repr server self rt rid data comp log) log
        [put_req self (url self ++ "/" ++ rt ++ "/" ++ py_str py_repr rid)
           data])
  /\ (forall c,
        truthy rid = true -> comp = Some c -> c <> EmptyString ->
        issues (put_resource py_repr server self rt rid data comp log) log
          [put_req self
             (url self ++ "/" ++ rt ++ "/" ++ py_str py_repr rid ++ "/" ++ c)
             data])
  /\ (forall v,
        fst (put_resource py_repr server self rt rid data comp log) = Ok v ->
        status_code
          (server log
             (put_req self (_get_resource_url py_repr self rt rid comp VNone)
                data)) = 200).
Proof.
  unfold issues. rewrite put_resource_run. cbv zeta. cbn [fst snd].
  split; [|split; [|split]].
  - intros H. now rewrite (url_falsy_id py_repr self rt rid comp VNone H).
  - intros H ->. now rewrite (url_id_only py_repr self rt rid VNone H).
  - intros c H -> Hc. unfold _get_resource_url.
    apply truthy_VStr in Hc. rewrite H, Hc. simpl.
    now rewrite !append_assoc.
  - intros v Hv.
    destruct (outcome_200_mapping
                (server log
                   (put_req self
                      (_get_resource_url py_repr self rt rid comp VNone) data)))
      as [Hok _].
    apply Hok in Hv. apply Z.eqb_eq. exact (proj1 Hv).
Qed.

End Operations.

(** * Further properties of search and lookup *)

Section Lookup.

Variable py_repr : value -> string.
Variable server : list request -> request -> response.
Variable self : Foreman.

(** X5.  A search answered with status 200 and a mapping that has no
    [results] entry raises [TypeError] ([len] of [None]); one whose
    [results] entry is itself a mapping with a single entry raises
    [KeyError] (the mapping is indexed with [0]). *)
Theorem search_resource_malformed_results rt sd log body :
  status_code (server log (search_req py_repr self rt sd)) = 200 ->
  resp_json (server log (search_req py_repr self rt sd)) = Some (VDict body) ->
  (Dict.mem "results" body = false ->
   fst (search_resource py_repr server self rt sd log) = Raise TypeError)
  /\ (forall k v,
        Dict.get "results" body = Some (VDict [(k, v)]) ->
        fst (search_resource py_repr server self rt sd log) = Raise KeyError).
Proof.
  intros Hs Hb. rewrite search_resource_run. cbv zeta.
  unfold outcome_200. rewrite Hs, Hb. simpl. unfold Dict.get_or_none.
  split.
  - unfold Dict.mem. intros Hm.
    destruct (Dict.get "results" body); [discriminate|reflexivity].
  - intros k v Hr. rewrite Hr. reflexivity.
Qed.

(** X6.  A search answered with a failure status and an error body
    [{"error": {...}}] raises the [ForemanError] of that response, and
    [get_resource] by name passes it on having issued the search only. *)
Theorem search_failure_propagates rt data log body err :
  let resp := server log (search_req py_repr self rt data) in
  let e := Foreman_Error
             {| error_url := resp_url resp;
                error_request := VDict body;
                error_status_code := status_code resp;
                error_message := Dict.get_or_none "message" err |} in
  status_code resp <> 200 ->
  resp_json resp = Some (VDict body) ->
  Dict.get "error" body = Some (VDict err) ->
  search_resource py_repr server self rt data log
  = (Raise e, (log ++ [search_req py_repr self rt data])%list)
  /\ (Dict.mem "id" data = false -> Dict.mem "name" data = true ->
      get_resource py_repr server self rt data log
      = (Raise e, (log ++ [search_req py_repr self rt data])%list)).
Proof.
  intros resp e Hs Hb He.
  assert (Hrun : search_resource py_repr server self rt data log
                 = (Raise e, (log ++ [search_req py_repr self rt data])%list)).
  { rewrite search_resource_run. cbv zeta. fold resp.
    destruct (outcome_200_mapping resp) as (_ & _ & H).
    rewrite (H body err); [reflexivity | now apply Z.eqb_neq | assumption
                           | assumption | discriminate]. }
  split; [exact Hrun|].
  intros Hi Hn. unfold get_resource. rewrite Hi, Hn.
  unfold bind at 1. unfold bind at 1. now rewrite Hrun.
Qed.

Lemma search_resource_log_any rt sd log :
  exists r,
    search_resource py_repr server self rt sd log
    = (r, (log ++ [search_req py_repr self rt sd])%list).
Proof.
  rewrite search_resource_run. cbv zeta.
  destruct (outcome_200 _) as [results|]; [|eauto].
  destruct (py_get results "results") as [result|]; [|eauto].
  destruct (py_len result) as [n|]; [|eauto].
  destruct (n =? 1); eauto.
Qed.

Lemma read_only_get_req u d : read_only self (get_req self u d).
Proof. repeat split. Qed.

(** X7.  [get_resource] only reads: whatever the identifier and the
    answers of the server, it adds at most two requests to the log, each of
    them a GET with the credentials of the client and without the JSON
    headers. *)
Theorem get_resource_read_only rt data log :
  exists issued,
    issues (get_resource py_repr server self rt data log) log issued
    /\ (List.length issued <= 2)%nat
    /\ Forall (read_only self) issued.
Proof.
  unfold issues, get_resource.
  destruct (Dict.mem "id" data).
  - run_io. destruct (truthy (Dict.get_or_none "id" data)).
    + rewrite get_request_run. eexists. split; [reflexivity|].
      split; [simpl; lia|]. repeat constructor.
    + exists []. rewrite app_nil_r. split; [reflexivity|].
      split; [simpl; lia|]. constructor.
  - destruct (Dict.mem "name" data).
    + unfold bind at 1. unfold bind at 1.
      destruct (search_resource_log_any rt data log) as [r Hr]. rewrite Hr.
      assert (Hone : exists issued,
                 (log ++ [search_req py_repr self rt data])%list
                 = (log ++ issued)%list
                 /\ (List.length issued <= 2)%nat
                 /\ Forall (read_only self) issued).
      { eexists. split; [reflexivity|]. split; [simpl; lia|].
        repeat constructor. }
      destruct r as [resource|]; [|exact Hone].
      assert (Hid : forall rid,
                 exists issued,
                   snd ((if truthy rid then
                           _get_request server self
                             (_get_resource_url py_repr self rt rid None VNone)
                             VNone
                         else ret VNone)
                          (log ++ [search_req py_repr self rt data])%list)
                   = (log ++ issued)%list
                   /\ (List.length issued <= 2)%nat
                   /\ Forall (read_only self) issued).
      { intros rid. destruct (truthy rid); [|exact Hone].
        rewrite get_request_run. cbn [snd]. rewrite <- app_assoc.
        eexists. split; [reflexivity|]. split; [simpl; lia|].
        repeat constructor. }
      destruct (truthy resource && truthy (VStr "id") && truthy resource).
      * unfold lift. destruct (py_get resource "id") as [rid|]; [|exact Hone].
        apply Hid.
      * apply (Hid VNone).
    + exists []. rewrite app_nil_r. split; [reflexivity|].
      split; [simpl; lia|]. constructor.
Qed.

(** X8.  When the search by name finds exactly one resource and that
    resource is a mapping, [get_resource] goes on to the GET of
    [base/resource_type/id] if the [id] of the match is true, and returns
    [None] after the search alone if the match has no [id] or a false one. *)
Theorem get_resource_single_match_id rt data log body r :
  let resp := server log (search_req py_repr self rt data) in
  let log' := (log ++ [search_req py_repr self rt data])%list in
  Dict.mem "id" data = false -> Dict.mem "name" data = true ->
  status_code resp = 200 ->
  resp_json resp = Some (VDict body) ->
  Dict.get "results" body = Some (VList [VDict r]) ->
  get_resource py_repr server self rt data log
  = if truthy (Dict.get_or_none "id" r) then
      _get_request server self
        (url self ++ "/" ++ rt ++ "/"
         ++ py_str py_repr (Dict.get_or_none "id" r)) VNone log'
    else (Ok VNone, log').
Proof.
  intros resp log' Hi Hn Hs Hb Hr. unfold get_resource. rewrite Hi, Hn.
  unfold bind at 1. unfold bind at 1.
  rewrite (search_resource_results py_repr server self rt data log body _
             Hs Hb Hr).
  fold log'. destruct r as [|entry r].
  - reflexivity.
  - change (truthy (VDict (entry :: r))) with true. run_io.
    destruct (truthy (Dict.get_or_none "id" (entry :: r))) eqn:Ht;
      [|reflexivity].
    now rewrite (url_id_only py_repr self rt _ VNone Ht).
Qed.

Lemma clause_of_nonempty e : clause_of e <> EmptyString.
Proof.
  destruct e as [k v].
  assert (H : forall r, k ++ " == " ++ r <> EmptyString)
    by (intros r; apply append_nonempty_r; discriminate).
  destruct v as [|[|]| | | |]; simpl; apply H.
Qed.

Lemma search_step_clause_of d acc k v :
  Dict.get k d = Some v ->
  search_step py_repr d acc k
  = (if truthy (VStr acc) then acc ++ " AND " else acc) ++ clause_of (k, v).
Proof.
  intros Hg. unfold search_step. rewrite Hg.
  destruct v as [|[|]| | | |]; simpl; rewrite ?append_assoc;
    rewrite ?append_empty_r; reflexivity.
Qed.

Lemma fold_search_step_of d entries acc :
  (forall k v, In (k, v) entries -> Dict.get k d = Some v) ->
  fold_left (search_step py_repr d) (Dict.keys entries) acc
  = join_onto acc (map clause_of entries).
Proof.
  revert acc. induction entries as [|[k v] entries IH]; intros acc H.
  - reflexivity.
  - simpl. rewrite (search_step_clause_of _ _ _ _ (H k v (or_introl eq_refl))).
    unfold join_onto in *. simpl. apply IH.
    intros k' v' Hin. apply H. now right.
Qed.

(** X9.  For a filter mapping with values of any type the query is still
    one clause per entry, in order, joined with [" AND "]: a boolean value
    is written [True] or [False] like an integer, and for a value that is
    neither an integer nor a string ([None], a list, a mapping) the clause
    is [key == ] with nothing after it. *)
Theorem search_query_any_values (d : dict) :
  Dict.wf d ->
  search_query py_repr d = String.concat " AND " (map clause_of d).
Proof.
  intros Hwf. unfold search_query. rewrite fold_search_step_of.
  - apply join_onto_empty. intros c Hin.
    apply in_map_iff in Hin as [e [<- _]]. apply clause_of_nonempty.
  - intros k v Hin. now apply DictFacts.get_In.
Qed.

(** X10.  [delete_resource] does not check the identifier: without an
    [id] entry the DELETE goes to [base/resource_type/None], and with the
    empty string as [id] it goes to the collection [base/resource_type]. *)
Theorem delete_resource_without_id rt data log :
  (Dict.mem "id" data = false ->
   issues (delete_resource py_repr server self rt data log) log
     [delete_req self (url self ++ "/" ++ rt ++ "/None")])
  /\ (Dict.get "id" data = Some (VStr EmptyString) ->
      issues (delete_resource py_repr server self rt data log) log
        [delete_req self (url self ++ "/" ++ rt)]).
Proof.
  unfold issues, delete_resource, Dict.get_or_none, Dict.mem. split.
  - intros Hm. destruct (Dict.get "id" data); [discriminate|].
    cbv zeta. rewrite delete_request_log.
    change (py_str py_repr VNone) with "None".
    now rewrite (url_id_only py_repr self rt (VStr "None") VNone eq_refl).
  - intros ->. cbv zeta. rewrite delete_request_log.
    change (py_str py_repr (VStr EmptyString)) with EmptyString.
    now rewrite (url_falsy_id py_repr self rt (VStr EmptyString) None VNone
                   eq_refl).
Qed.

End Lookup.

(** * Properties of the resource-specific methods *)

Section Methods.

Variable py_repr : value -> string.
Variable server : list request -> request -> response.
Variable self : Foreman.

Lemma set_append k v d :
  Dict.mem k d = false -> Dict.set k v d = (d ++ [(k, v)])%list.
Proof.
  unfold Dict.mem. induction d as [|[k0 v0] d IH]; simpl; [reflexivity|].
  destruct (String.eqb k k0); [discriminate|].
  intros H. now rewrite IH.
Qed.

Lemma fold_copy_rebuild ad suffix : forall prefix,
  Dict.wf (prefix ++ suffix)%list ->
  (forall k v, In (k, v) suffix -> Dict.get k ad = Some v) ->
  fold_left (copy_step ad) (Dict.keys suffix) prefix = (prefix ++ suffix)%list.
Proof.
  induction suffix as [|[k v] suffix IH]; intros prefix Hwf Hget.
  - simpl. now rewrite app_nil_r.
  - simpl. unfold copy_step at 2. rewrite (Hget k v (or_introl eq_refl)).
    assert (Hk : Dict.mem k prefix = false).
    { destruct (Dict.mem k prefix) eqn:E; [|reflexivity].
      apply DictFacts.mem_In in E. unfold Dict.wf, Dict.keys in Hwf.
      rewrite map_app in Hwf. simpl in Hwf. apply NoDup_remove_2 in Hwf.
      exfalso. apply Hwf. apply in_or_app. now left. }
    rewrite (set_append _ _ _ Hk).
    rewrite IH.
    + now rewrite <- app_assoc.
    + now rewrite <- app_assoc.
    + intros k' v' Hin. apply Hget. now right.
Qed.

(** X11.  For an extra mapping with distinct keys the body of a create
    request is the extra mapping with the payload put under the wrapper
    key: appended as the last entry when the extra mapping has no such key;
    and without an extra mapping the body is the wrapped payload alone. *)
Theorem post_resource_body_exact resource data ad :
  Dict.wf ad ->
  post_resource_data resource data (Some ad) = Dict.set resource data ad
  /\ (Dict.mem resource ad = false ->
      post_resource_data resource data (Some ad)
      = (ad ++ [(resource, data)])%list)
  /\ post_resource_data resource data None = [(resource, data)].
Proof.
  intros Hwf.
  assert (H : post_resource_data resource data (Some ad)
              = Dict.set resource data ad).
  { unfold post_resource_data. destruct ad as [|e ad]; [reflexivity|].
    change (truthy (VDict (e :: ad))) with true. cbv iota.
    rewrite (fold_copy_rebuild (e :: ad) (e :: ad) []); [reflexivity| |].
    - exact Hwf.
    - intros k v Hin. now apply DictFacts.get_In. }
  split; [exact H|]. split; [|reflexivity].
  intros Hm. rewrite H. now apply set_append.
Qed.

Lemma url_id_component rt rid c :
  truthy rid = true -> c <> EmptyString ->
  _get_resource_url py_repr self rt rid (Some c) VNone
  = url self ++ "/" ++ rt ++ "/" ++ py_str py_repr rid ++ "/" ++ c.
Proof.
  intros Hr Hc. unfold _get_resource_url. apply truthy_VStr in Hc.
  rewrite Hr, Hc. simpl. now rewrite !append_assoc.
Qed.

Lemma set_host_power_run host_id action log :
  set_host_power py_repr server self host_id action log
  = let req :=
      put_req self
        (_get_resource_url py_repr self "hosts" host_id (Some "power") VNone)
        (power_body action) in
    (outcome_200 (server log req), (log ++ [req])%list).
Proof. unfold set_host_power, power_body. apply put_resource_run. Qed.

(** X12.  The power operations of a host with a true id each issue one PUT
    of [base/hosts/id/power] whose body is
    [{"power_action": action, "host": {}}], the action being [start] for
    [poweron_host], [stop] for [poweroff_host], [reboot] for [reboot_host]
    and [state] for [get_host_power]; with a false id (0, [None]) the PUT
    goes to the collection [base/hosts] instead. *)
Theorem host_power_requests host_id log :
  let target :=
    if truthy host_id
    then url self ++ "/hosts/" ++ py_str py_repr host_id ++ "/power"
    else url self ++ "/hosts" in
  issues (poweron_host py_repr server self host_id log) log
    [put_req self target (power_body (VStr "start"))]
  /\ issues (poweroff_host py_repr server self host_id log) log
       [put_req self target (power_body (VStr "stop"))]
  /\ issues (reboot_host py_repr server self host_id log) log
       [put_req self target (power_body (VStr "reboot"))]
  /\ issues (get_host_power py_repr server self host_id log) log
       [put_req self target (power_body (VStr "state"))]
  /\ (forall action,
        issues (set_host_power py_repr server self host_id action log) log
          [put_req self target (power_body action)]).
Proof.
  cbv zeta.
  assert (Hu : _get_resource_url py_repr self "hosts" host_id (Some "power")
                 VNone
               = if truthy host_id
                 then url self ++ "/hosts/" ++ py_str py_repr host_id
                      ++ "/power"
                 else url self ++ "/hosts").
  { destruct (truthy host_id) eqn:Ht.
    - rewrite (url_id_component "hosts" host_id "power" Ht); [reflexivity|].
      discriminate.
    - now rewrite (url_falsy_id py_repr self "hosts" host_id _ _ Ht). }
  assert (Hset : forall action,
             issues (set_host_power py_repr server self host_id action log)
               log
               [put_req self
                  (if truthy host_id
                   then url self ++ "/hosts/" ++ py_str py_repr host_id
                        ++ "/power"
                   else url self ++ "/hosts") (power_body action)]).
  { intros action. unfold issues. rewrite set_host_power_run. cbv zeta.
    now rewrite Hu. }
  split; [apply Hset|]. split; [apply Hset|]. split; [apply Hset|].
  split; [apply (Hset (VStr "state"))|apply Hset].
Qed.

(** X13.  [create_compute_attribute] posts to [base/compute_attributes] a
    body of exactly three entries: [compute_resource_id] and
    [compute_profile_id] at top level and [vm_attrs] inside
    [compute_attribute], each read from the argument and [None] when the
    argument lacks it; nothing else of the argument is sent. *)
Theorem create_compute_attribute_body data log :
  issues (create_compute_attribute py_repr server self data log) log
    [post_req self (url self ++ "/compute_attributes")
       (VDict
          [("compute_resource_id",
            Dict.get_or_none "compute_resource_id" data);
           ("compute_profile_id", Dict.get_or_none "compute_profile_id" data);
           ("compute_attribute",
            VDict [("vm_attrs", Dict.get_or_none "vm_attrs" data)])])].
Proof.
  unfold issues, create_compute_attribute. cbv zeta.
  rewrite post_resource_run. reflexivity.
Qed.

(** X14.  [update_compute_attribute] sends only [vm_attrs]: with a true
    [id] in the argument it issues the PUT of [base/compute_attributes/id]
    with body [{"vm_attrs": ...}]; when the argument has no [id] the PUT
    goes to the collection [base/compute_attributes]. *)
Theorem update_compute_attribute_request data log :
  let body := VDict [("vm_attrs", Dict.get_or_none "vm_attrs" data)] in
  (forall rid,
      Dict.get "id" data = Some rid -> truthy rid = true ->
      issues (update_compute_attribute py_repr server self data log) log
        [put_req self
           (url self ++ "/compute_attributes/" ++ py_str py_repr rid) body])
  /\ (Dict.mem "id" data = false ->
      issues (update_compute_attribute py_repr server self data log) log
        [put_req self (url self ++ "/compute_attributes") body]).
Proof.
  cbv zeta. unfold issues, update_compute_attribute.
  rewrite put_resource_run. cbv zeta. cbn [snd].
  split.
  - intros rid Hid Ht.
    assert (Hg : Dict.get_or_none "id" data = rid)
      by (unfold Dict.get_or_none; now rewrite Hid).
    rewrite Hg.
    now rewrite (url_id_only py_repr self "compute_attributes" rid VNone Ht).
  - intros Hm.
    assert (Hg : Dict.get_or_none "id" data = VNone).
    { unfold Dict.get_or_none. unfold Dict.mem in Hm.
      destruct (Dict.get "id" data); [discriminate|reflexivity]. }
    rewrite Hg.
    now rewrite (url_falsy_id py_repr self "compute_attributes" VNone None
                   VNone eq_refl).
Qed.

(** X15.  [get_compute_attributes] looks the compute resource up by the
    name under [compute_resource]: when the search finds nothing the result
    is [None] after that one request; when it finds one resource with a
    true id and the GET of that resource is answered with status 200 and a
    mapping, the result is the [compute_attributes] entry of that
    mapping. *)
Theorem get_compute_attributes_lookup data log :
  let ident := [("name", Dict.get_or_none "compute_resource" data)] in
  let search := search_req py_repr self "compute_resources" ident in
  status_code (server log search) = 200 ->
  (forall body,
      resp_json (server log search) = Some (VDict body) ->
      Dict.get "results" body = Some (VList []) ->
      get_compute_attributes py_repr server self data log
      = (Ok VNone, (log ++ [search])%list))
  /\ (forall body r rid res,
        resp_json (server log search) = Some (VDict body) ->
        Dict.get "results" body = Some (VList [VDict r]) ->
        Dict.get "id" r = Some rid -> truthy rid = true ->
        let get :=
          get_req self
            (url self ++ "/compute_resources/" ++ py_str py_repr rid) VNone in
        status_code (server (log ++ [search])%list get) = 200 ->
        resp_json (server (log ++ [search])%list get) = Some (VDict res) ->
        get_compute_attributes py_repr server self data log
        = (Ok (Dict.get_or_none "compute_attributes" res),
           (log ++ [search; get])%list)).
Proof.
  intros ident search Hs. subst search ident. split.
  - intros body Hb Hr. unfold get_compute_attributes, get_compute_resource.
    unfold bind.
    rewrite (get_resource_no_match py_repr server self "compute_resources"
               [("name", Dict.get_or_none "compute_resource" data)]
               log body eq_refl eq_refl Hs Hb Hr).
    reflexivity.
  - intros body r rid res Hb Hr Hid Ht get Hs' Hb'.
    unfold get_compute_attributes, get_compute_resource. unfold bind.
    rewrite (get_resource_single_match py_repr server self
               "compute_resources"
               [("name", Dict.get_or_none "compute_resource" data)]
               log body r rid eq_refl eq_refl Hs Hb Hr Hid Ht).
    rewrite get_request_run.
    change (get_req self
              (url self ++ "/" ++ "compute_resources" ++ "/"
               ++ py_str py_repr rid) VNone) with get.
    unfold outcome_200. rewrite Hs', Hb'. simpl.
    rewrite <- app_assoc. simpl.
    destruct res; reflexivity.
Qed.

(** X16.  The two lookup paths differ on an identifier that holds only a
    non-zero [id]: [get_host] searches, with the GET of [base/hosts]
    carrying the query [id == n], and never addresses [base/hosts/n];
    [get_architecture] issues the GET of [base/architectures/n] and no
    search. *)
Theorem lookup_paths_differ n log :
  n <> 0 ->
  issues (get_host py_repr server self [("id", VInt n)] log) log
    [get_req self (url self ++ "/hosts")
       (VDict [("search", VStr ("id == " ++ str_of_Z n))])]
  /\ issues (get_architecture py_repr server self [("id", VInt n)] log) log
       [get_req self (url self ++ "/architectures/" ++ str_of_Z n) VNone].
Proof.
  intros Hn. unfold issues, get_host, get_architecture. split.
  - destruct (search_resource_log_any py_repr server self "hosts"
                [("id", VInt n)] log) as [r Hr].
    rewrite Hr. cbn [snd]. unfold search_req, search_query. simpl.
    reflexivity.
  - rewrite (get_resource_by_id py_repr server self "architectures"
               [("id", VInt n)] (VInt n) log eq_refl).
    assert (Ht : truthy (VInt n) = true)
      by (simpl; now apply negb_true_iff, Z.eqb_neq).
    rewrite Ht, get_request_log. reflexivity.
Qed.

(** X17.  For a client built by [__init__] with an integer port, every URL
    of the URL builder starts with [https://hostname:port/api/v2/] followed
    by the resource type; and the client keeps the credentials it was
    given. *)
Theorem init_urls_under_api_root hostname port username password rt rid comp
    cid :
  let client := Foreman_init py_repr hostname (VInt port) username password in
  auth client = (username, password)
  /\ exists suffix,
       _get_resource_url py_repr client rt rid comp cid
       = "https://" ++ hostname ++ ":" ++ str_of_Z port ++ "/api/v2/" ++ rt
         ++ suffix.
Proof.
  cbv zeta. split; [reflexivity|].
  assert (Hb : forall s,
             url (Foreman_init py_repr hostname (VInt port) username password)
             ++ "/" ++ s
             = "https://" ++ hostname ++ ":" ++ str_of_Z port ++ "/api/v2/"
               ++ s).
  { intros s. unfold Foreman_init, FOREMAN_API_VERSION. cbn [url py_str].
    rewrite !append_assoc. reflexivity. }
  unfold _get_resource_url.
  destruct (truthy rid).
  - destruct comp as [c|].
    + destruct (truthy (VStr c)).
      * destruct (truthy cid);
          eexists; rewrite !append_assoc, Hb; reflexivity.
      * eexists; rewrite !append_assoc, Hb; reflexivity.
    + eexists; rewrite !append_assoc, Hb; reflexivity.
  - exists EmptyString. rewrite !append_assoc, Hb.
    now rewrite append_empty_r.
Qed.

End Methods.

(** * The further properties at concrete inputs *)

(** [get_resources("hosts")] answered with [{"results": []}]. *)
Lemma get_resources_results_witness :
  fst (get_resources no_repr (always no_results) foreman0 "hosts" [])
  = Ok (VList []).
Proof.
  destruct (get_resources_results no_repr (always no_results) foreman0
              "hosts" []) as (_ & H & _).
  apply (H [("results", VList [])]); reflexivity.
Defined.

(** A PUT answered with 201 and the body of the resource. *)
Lemma failure_without_error_entry_witness :
  fst (_put_request (always created) foreman0
         "https://foreman.example.com:443/api/v2/domains/3"
         (VDict [("name", VStr "example.org")]) [])
  = Raise AttributeError.
Proof.
  destruct (failure_without_error_entry (always created) foreman0
              "https://foreman.example.com:443/api/v2/domains/3"
              (VDict [("name", VStr "example.org")]) []
              [("id", VInt 3); ("name", VStr "example.com")] eq_refl)
    as (_ & H & _).
  apply H; [discriminate | reflexivity].
Defined.

(** [put_resource("hosts", 0, ..., component="power")] addresses the
    collection. *)
Lemma put_resource_target_witness :
  snd (put_resource no_repr (always created) foreman0 "hosts" (VInt 0)
         (power_body (VStr "start")) (Some "power") [])
  = [put_req foreman0 "https://foreman.example.com:443/api/v2/hosts"
       (power_body (VStr "start"))].
Proof.
  destruct (put_resource_target no_repr (always created) foreman0 "hosts"
              (VInt 0) (power_body (VStr "start")) (Some "power") [])
    as (H & _).
  exact (H eq_refl).
Defined.

(** A search answered with [{"total": 0}]. *)
Lemma search_resource_malformed_results_witness :
  fst (search_resource no_repr (always no_results_entry) foreman0 "hosts"
         [("name", VStr "h1")] [])
  = Raise TypeError.
Proof.
  destruct (search_resource_malformed_results no_repr
              (always no_results_entry) foreman0 "hosts"
              [("name", VStr "h1")] [] [("total", VInt 0)] eq_refl eq_refl)
    as (H & _).
  exact (H eq_refl).
Defined.

(** [get_resource("hosts", {"name": "h1"})] when the search is answered
    with 404 and [{"error": {"message": "not found"}}]. *)
Lemma search_failure_propagates_witness :
  get_resource no_repr (always not_found) foreman0 "hosts"
    [("name", VStr "h1")] []
  = (Raise (Foreman_Error
              {| error_url :=
                   "https://foreman.example.com:443/api/v2/domains/3";
                 error_request :=
                   VDict [("error", VDict [("message", VStr "not found")])];
                 error_status_code := 404;
                 error_message := VStr "not found" |}),
     [search_req no_repr foreman0 "hosts" [("name", VStr "h1")]]).
Proof.
  destruct (search_failure_propagates no_repr (always not_found) foreman0
              "hosts" [("name", VStr "h1")] []
              [("error", VDict [("message", VStr "not found")])]
              [("message", VStr "not found")])
    as (_ & H); [discriminate | reflexivity | reflexivity |].
  exact (H eq_refl eq_refl).
Defined.

(** [get_resource("hosts", {"name": "h1"})] when the search finds the host
    of id 7. *)
Lemma get_resource_single_match_id_witness :
  get_resource no_repr (always one_result) foreman0 "hosts"
    [("name", VStr "h1")] []
  = _get_request (always one_result) foreman0
      "https://foreman.example.com:443/api/v2/hosts/7" VNone
      [search_req no_repr foreman0 "hosts" [("name", VStr "h1")]].
Proof.
  exact (get_resource_single_match_id no_repr (always one_result) foreman0
           "hosts" [("name", VStr "h1")] []
           [("results", VList [VDict [("id", VInt 7); ("name", VStr "h1")]])]
           [("id", VInt 7); ("name", VStr "h1")]
           eq_refl eq_refl eq_refl eq_refl eq_refl).
Defined.

(** The query of [{"enabled": True, "comment": None}]. *)
Lemma search_query_any_values_witness :
  search_query no_repr [("enabled", VBool true); ("comment", VNone)]
  = "enabled == True AND comment == ".
Proof.
  rewrite (search_query_any_values no_repr
             [("enabled", VBool true); ("comment", VNone)]).
  - reflexivity.
  - repeat constructor; simpl; intuition discriminate.
Defined.

(** [delete_resource("domains", {"name": "example.com"})] *)
Lemma delete_resource_without_id_witness :
  snd (delete_resource no_repr (always not_found) foreman0 "domains"
         [("name", VStr "example.com")] [])
  = [delete_req foreman0
       "https://foreman.example.com:443/api/v2/domains/None"].
Proof.
  destruct (delete_resource_without_id no_repr (always not_found) foreman0
              "domains" [("name", VStr "example.com")] []) as (H & _).
  exact (H eq_refl).
Defined.

(** An extra mapping without the wrapper key. *)
Lemma post_resource_body_exact_witness :
  post_resource_data "compute_attribute" (VDict [("vm_attrs", VNone)])
    (Some [("compute_resource_id", VInt 1); ("compute_profile_id", VInt 2)])
  = [("compute_resource_id", VInt 1); ("compute_profile_id", VInt 2);
     ("compute_attribute", VDict [("vm_attrs", VNone)])].
Proof.
  destruct (post_resource_body_exact "compute_attribute"
              (VDict [("vm_attrs", VNone)])
              [("compute_resource_id", VInt 1); ("compute_profile_id", VInt 2)])
    as (_ & H & _).
  - repeat constructor; simpl; intuition discriminate.
  - exact (H eq_refl).
Defined.

(** [update_compute_attribute] of
    [{"id": 5, "name": "small", "vm_attrs": {"cpus": 4}}]. *)
Lemma update_compute_attribute_request_witness :
  snd (update_compute_attribute no_repr (always created) foreman0
         [("id", VInt 5); ("name", VStr "small");
          ("vm_attrs", VDict [("cpus", VInt 4)])] [])
  = [put_req foreman0
       "https://foreman.example.com:443/api/v2/compute_attributes/5"
       (VDict [("vm_attrs", VDict [("cpus", VInt 4)])])].
Proof.
  destruct (update_compute_attribute_request no_repr (always created)
              foreman0
              [("id", VInt 5); ("name", VStr "small");
               ("vm_attrs", VDict [("cpus", VInt 4)])] []) as (H & _).
  exact (H (VInt 5) eq_refl eq_refl).
Defined.

(** [get_compute_attributes({"compute_resource": "h1"})] when the search
    finds the compute resource of id 7. *)
Lemma get_compute_attributes_lookup_witness :
  fst (get_compute_attributes no_repr (first_then one_result compute_resource_7)
         foreman0 [("compute_resource", VStr "h1")] [])
  = Ok (VList [VDict [("compute_profile_id", VInt 2)]]).
Proof.
  destruct (get_compute_attributes_lookup no_repr
              (first_then one_result compute_resource_7) foreman0
              [("compute_resource", VStr "h1")] [] eq_refl) as (_ & H).
  rewrite (H [("results", VList [VDict [("id", VInt 7); ("name", VStr "h1")]])]
             [("id", VInt 7); ("name", VStr "h1")] (VInt 7)
             [("id", VInt 7); ("name", VStr "h1");
              ("compute_attributes",
               VList [VDict [("compute_profile_id", VInt 2)]])]
             eq_refl eq_refl eq_refl eq_refl eq_refl eq_refl).
  reflexivity.
Defined.

(** [get_host({"id": 7})] and [get_architecture({"id": 7})]. *)
Lemma lookup_paths_differ_witness :
  snd (get_host no_repr (always one_result) foreman0 [("id", VInt 7)] [])
  = [get_req foreman0 "https://foreman.example.com:443/api/v2/hosts"
       (VDict [("search", VStr "id == 7")])]
  /\ snd (get_architecture no_repr (always one_result) foreman0
            [("id", VInt 7)] [])
     = [get_req foreman0
          "https://foreman.example.com:443/api/v2/architectures/7" VNone].
Proof.
  apply (lookup_paths_differ no_repr (always one_result) foreman0 7 []).
  discriminate.
Defined.
